(** * chatPDF backend: document lifecycle and query orchestration

    A shallow embedding of [backend/main.py]: the in-memory document store
    [documents_db], the ingestion endpoint [upload_document] with its helper
    [process_document_with_unstructured], the query endpoint [ask_question]
    with its helper [query_document_with_gemini], and [list_documents].

    The external collaborators (the uuid generator, the local file system,
    the partitioning pipeline, the generative model) are an interface over an
    abstract world; Python exceptions are an explicit error result; the
    handlers are written in a small state-and-exception monad. *)

From Stdlib Require Import NArith Ascii.
From stdpp Require Import base list strings pretty gmap.

Local Open Scope N_scope.
Local Open Scope stdpp_scope.

(** ** Python strings: the few helpers the handlers use *)

Module Str.

Definition nl : string := String "010"%char EmptyString.

Fixpoint all_chars (P : ascii → bool) (s : string) : bool :=
  match s with
  | EmptyString => true
  | String c r => P c && all_chars P r
  end.

Definition is_sep (c : ascii) : bool := bool_decide (c = "/"%char).

(** [sep in s] *)
Fixpoint has_sep (s : string) : bool :=
  match s with
  | EmptyString => false
  | String c r => is_sep c || has_sep r
  end.

(** [s.startswith(sep)] *)
Definition startswith_sep (s : string) : bool :=
  match s with
  | String c _ => is_sep c
  | EmptyString => false
  end.

(** [s.endswith(sep)] *)
Fixpoint endswith_sep (s : string) : bool :=
  match s with
  | EmptyString => false
  | String c EmptyString => is_sep c
  | String _ r => endswith_sep r
  end.

(** [t in s] for strings: [t] occurs in [s] as a contiguous block. *)
Definition substring_of (t s : string) : Prop :=
  ∃ pre post : string, s = pre +:+ t +:+ post.

End Str.

(** ** [os.path] (posixpath) *)

(** [os.path.join(a, b)]: an absolute [b] discards [a]; otherwise the two
    are glued with exactly one separator. *)
Definition os_path_join (a b : string) : string :=
  if Str.startswith_sep b then b
  else if bool_decide (a = EmptyString) || Str.endswith_sep a then a +:+ b
  else a +:+ "/" +:+ b.

(** [os.path.basename(p)]: [p[p.rfind('/') + 1:]]. *)
Fixpoint os_path_basename (p : string) : string :=
  match p with
  | EmptyString => EmptyString
  | String c r =>
      if Str.has_sep r then os_path_basename r
      else if Str.is_sep c then r
      else p
  end.

(** ** [uuid]: the textual form of a UUID *)

Module UUID.

Definition hex_digit (d : N) : ascii :=
  match d with
  | 0 => "0" | 1 => "1" | 2 => "2" | 3 => "3"
  | 4 => "4" | 5 => "5" | 6 => "6" | 7 => "7"
  | 8 => "8" | 9 => "9" | 10 => "a" | 11 => "b"
  | 12 => "c" | 13 => "d" | 14 => "e" | _ => "f"
  end%char.

(** ['%0kx' % n], for [n] below [16^k]. *)
Fixpoint hex_fixed (k : nat) (n : N) : string :=
  match k with
  | O => EmptyString
  | S k' => hex_fixed k' (n / 16) +:+ String (hex_digit (n mod 16)) EmptyString
  end.

(** [str(u)] for a UUID whose 128-bit integer is [u]:
    [hex = '%032x' % self.int] cut as 8-4-4-4-12. *)
Definition str (u : N) : string :=
  let hex := hex_fixed 32 (u mod 2 ^ 128) in
  String.substring 0 8 hex +:+ "-" +:+ String.substring 8 4 hex +:+ "-" +:+
  String.substring 12 4 hex +:+ "-" +:+ String.substring 16 4 hex +:+ "-" +:+
  String.substring 20 12 hex.

End UUID.

(** ** Python [dict]: insertion-ordered association *)

Module Dict.
Section Dict.
Context {V : Type}.

(** [d.keys()] *)
Definition keys (d : list (string * V)) : list string := d.*1.

(** [d.get(k)] / [d[k]] when present *)
Fixpoint get (k : string) (d : list (string * V)) : option V :=
  match d with
  | [] => None
  | (k', v) :: r => if decide (k = k') then Some v else get k r
  end.

(** [k in d] *)
Definition contains (k : string) (d : list (string * V)) : bool :=
  match get k d with Some _ => true | None => false end.

(** [d[k] = v]: an existing key keeps its position and takes the new
    value; a new key goes to the end. *)
Fixpoint set (k : string) (v : V) (d : list (string * V)) : list (string * V) :=
  match d with
  | [] => [(k, v)]
  | (k', v') :: r =>
      if decide (k = k') then (k, v) :: r else (k', v') :: set k v r
  end.

End Dict.
End Dict.

(** ** JSON bodies of the responses *)

#[warnings="-register-all"]
Inductive json : Type :=
| JStr (s : string)
| JArr (items : list json)
| JObj (fields : list (string * json)).

(** ** Exceptions and results *)

Inductive exn : Type :=
| Exception (msg : string)
| HTTPException (status_code : nat) (detail : string).

(** [str(e)] *)
Definition str_exn (e : exn) : string :=
match e with
| Exception msg => msg
| HTTPException code detail => pretty code +:+ ": " +:+ detail
end.

Inductive outcome (A : Type) : Type :=
| Return (a : A)
| Raise (e : exn).
Arguments Return {A} a.
Arguments Raise {A} e.

(** ** Configuration read once at start-up *)

(** The values [os.getenv] returned when the module was loaded.  The two
    directories are string literals in the source, not environment reads. *)
Record Settings : Type := {
  UNSTRUCTUREDIO_API_KEY : option string;
  UNSTRUCTUREDIO_ENDPOINT : option string;
  GEMINI_API_KEY : option string;
}.

Definition UPLOAD_DIRECTORY : string := "./uploaded_documents".
Definition OUTPUT_DIRECTORY : string := "./output".

(** The arguments of [Pipeline.from_configs]. *)
Record PipelineConfigs : Type := {
  input_path : string;
  partition_by_api : bool;
  api_key : option string;
  partition_endpoint : option string;
  strategy : string;
  split_pdf_page : bool;
  split_pdf_allow_failed : bool;
  split_pdf_concurrency_level : N;
  output_dir : string;
}.

(** [genai.GenerativeModel('gemini-1.5-flash')] after [genai.configure]. *)
Record GenerativeModel : Type := {
  model_name : string;
  model_api_key : option string;
}.

(** ** The external collaborators *)

(** Every external call, with its arguments, in the order it was made. *)
Inductive call : Type :=
  | Call_uuid4 (u : N)
  | Call_open_wb_write (path : string) (data : list Byte.byte)
  | Call_Pipeline_run (cfg : PipelineConfigs)
  | Call_os_path_exists (path : string)
  | Call_open_r_read (path : string)
  | Call_generate_content (m : GenerativeModel) (prompt : string).

(** The world outside the process (file system, network services, entropy)
    is a value of an arbitrary type [W]; each collaborator is a transition on
    it that returns or raises. *)
Class Collaborators (W : Type) : Type := {
  (** [uuid.uuid4()], as the UUID's integer *)
  uuid4 : W → N * W;
  (** [with open(path, "wb") as f: f.write(data)] *)
  open_wb_write : string → list Byte.byte → W → outcome unit * W;
  (** [Pipeline.from_configs(...).run()] *)
  Pipeline_run : PipelineConfigs → W → outcome unit * W;
  (** [os.path.exists(path)] *)
  os_path_exists : string → W → bool;
  (** [with open(path, 'r', encoding='utf-8') as f: f.read()] *)
  open_r_read : string → W → outcome string * W;
  (** [model.generate_content(prompt).text] *)
  generate_content : GenerativeModel → string → W → outcome string * W;
}.

(** ** Process state and the handler monad *)

(** One value of [documents_db]. *)
Record DocumentRecord : Type := {
  file_name : string;
  file_path : string;
  content : string;
}.

Record State (W : Type) : Type := {
  documents_db : list (string * DocumentRecord);
  world : W;
  calls : list call;
}.
Arguments documents_db {W} _.
Arguments world {W} _.
Arguments calls {W} _.

(** State at start-up: [documents_db = {}]. *)
Definition initial_state {W : Type} (w : W) : State W :=
  {| documents_db := []; world := w; calls := [] |}.

Definition M (W A : Type) : Type := State W → outcome A * State W.

Section Monad.
Context {W : Type}.

Definition ret {A} (a : A) : M W A := λ s, (Return a, s).

Definition raise {A} (e : exn) : M W A := λ s, (Raise e, s).

Definition bind {A B} (m : M W A) (k : A → M W B) : M W B :=
  λ s, match m s with
       | (Return a, s') => k a s'
       | (Raise e, s') => (Raise e, s')
       end.

(** [try: m  except Exception as e: h e] *)
Definition try_except {A} (m : M W A) (h : exn → M W A) : M W A :=
  λ s, match m s with
       | (Return a, s') => (Return a, s')
       | (Raise e, s') => h e s'
       end.

(** An external call: run it on the world and record it. *)
Definition external {A} (c : call) (op : W → outcome A * W) : M W A :=
  λ s, let '(r, w') := op (world s) in
       (r, {| documents_db := documents_db s; world := w';
              calls := calls s ++ [c] |}).

(** A read of the module-level dict. *)
Definition read_db : M W (list (string * DocumentRecord)) :=
  λ s, (Return (documents_db s), s).

(** [documents_db[k] = v] *)
Definition db_setitem (k : string) (v : DocumentRecord) : M W unit :=
  λ s, (Return (),
        {| documents_db := Dict.set k v (documents_db s); world := world s;
           calls := calls s |}).

(** [documents_db[k]]; a missing key raises [KeyError(k)]. *)
Definition db_getitem (k : string) : M W DocumentRecord :=
  λ s, match Dict.get k (documents_db s) with
       | Some v => (Return v, s)
       | None => (Raise (Exception ("'" +:+ k +:+ "'")), s)
       end.

End Monad.

Notation "'let*' x ':=' m 'in' k" := (bind m (λ x, k))
  (at level 10, x pattern, m at level 100, k at level 200, only parsing).
Notation "m1 ';;' m2" := (bind m1 (λ _, m2))
  (at level 100, m2 at level 200, right associativity, only parsing).

(** ** The handlers of [main.py] *)

Record UploadFile : Type := {
  filename : string;
  data : list Byte.byte;
}.

Record DocumentQuery : Type := {
  document_id : string;
  query : string;
}.

Section Handlers.
Context {W : Type} `{!Collaborators W} (settings : Settings).

Definition model : GenerativeModel :=
  {| model_name := "gemini-1.5-flash";
     model_api_key := GEMINI_API_KEY settings |}.

Definition pipeline_configs (file_path : string) : PipelineConfigs :=
  {| input_path := file_path;
     partition_by_api := true;
     api_key := UNSTRUCTUREDIO_API_KEY settings;
     partition_endpoint := UNSTRUCTUREDIO_ENDPOINT settings;
     strategy := "hi_res";
     split_pdf_page := true;
     split_pdf_allow_failed := true;
     split_pdf_concurrency_level := 15;
     output_dir := OUTPUT_DIRECTORY |}.

(** [os.path.join(OUTPUT_DIRECTORY, os.path.basename(file_path)) + '.json'] *)
Definition output_file_of (file_path : string) : string :=
  os_path_join OUTPUT_DIRECTORY (os_path_basename file_path) +:+ ".json".

Definition process_document_with_unstructured (file_path : string)
  : M W string :=
  try_except
    (external (Call_Pipeline_run (pipeline_configs file_path))
       (Pipeline_run (pipeline_configs file_path)) ;;
     let output_file := output_file_of file_path in
     let* found :=
       external (Call_os_path_exists output_file)
         (λ w, (Return (os_path_exists output_file w), w)) in
     if found : bool
     then external (Call_open_r_read output_file) (open_r_read output_file)
     else ret EmptyString)
    (λ e, raise (Exception ("Error processing document: " +:+ str_exn e))).

(** The f-string of [query_document_with_gemini]: each line of the template
    carries the eight spaces of its indentation. *)
Definition prompt_of (document_content query : string) : string :=
  let indent := "        " in
  Str.nl +:+
  indent +:+ "Based on the following document content, please answer the question." +:+ Str.nl +:+
  indent +:+ Str.nl +:+
  indent +:+ "Document content:" +:+ Str.nl +:+
  indent +:+ document_content +:+ Str.nl +:+
  indent +:+ Str.nl +:+
  indent +:+ "Question: " +:+ query +:+ Str.nl +:+
  indent +:+ Str.nl +:+
  indent +:+ "Please provide a concise and accurate answer based only on the information provided in the document." +:+ Str.nl +:+
  indent.

(** The three fixed stretches of the template: before the content, between
    content and question, after the question. *)
Definition prompt_head : string :=
  Eval vm_compute in
    String.substring 0 121 (prompt_of EmptyString EmptyString).
Definition prompt_middle : string :=
  Eval vm_compute in
    String.substring 121 28 (prompt_of EmptyString EmptyString).
Definition prompt_tail : string :=
  Eval vm_compute in
    String.substring 149 127 (prompt_of EmptyString EmptyString).

Definition query_document_with_gemini (document_content query : string)
  : M W string :=
  try_except
    (let prompt := prompt_of document_content query in
     external (Call_generate_content model prompt)
       (generate_content model prompt))
    (λ e, raise (Exception ("Error processing query with Gemini: " +:+ str_exn e))).

(** [str(uuid.uuid4())] *)
Definition new_file_id : M W string :=
  λ s, let '(u, w') := uuid4 (world s) in
       (Return (UUID.str u),
        {| documents_db := documents_db s; world := w';
           calls := calls s ++ [Call_uuid4 u] |}).

(** [os.path.join(UPLOAD_DIRECTORY, f"{file_id}_{file.filename}")] *)
Definition upload_path (file_id name : string) : string :=
  os_path_join UPLOAD_DIRECTORY (file_id +:+ "_" +:+ name).

(** [POST /upload] *)
Definition upload_document (file : UploadFile) : M W json :=
  let* file_id := new_file_id in
  let file_path := upload_path file_id (filename file) in
  try_except
    (external (Call_open_wb_write file_path (data file))
       (open_wb_write file_path (data file)) ;;
     let* processed_content := process_document_with_unstructured file_path in
     db_setitem file_id
       {| file_name := filename file;
          file_path := file_path;
          content := processed_content |} ;;
     ret (JObj [("message", JStr "Document uploaded and processed successfully");
                ("document_id", JStr file_id)]))
    (λ e, raise (HTTPException 500 (str_exn e))).

(** [POST /ask] *)
Definition ask_question (q : DocumentQuery) : M W json :=
  let* db := read_db in
  if negb (Dict.contains (document_id q) db)
  then raise (HTTPException 404 "Document not found")
  else
    try_except
      (let* doc := db_getitem (document_id q) in
       let document_content := content doc in
       let* response := query_document_with_gemini document_content (query q) in
       let* doc' := db_getitem (document_id q) in
       ret (JObj [("query", JStr (query q));
                  ("response", JStr response);
                  ("document", JStr (file_name doc'))]))
      (λ e, raise (HTTPException 500 (str_exn e))).

(** [GET /documents] *)
Definition list_documents : M W json :=
  let* db := read_db in
  ret (JArr (map (λ '(doc_id, info),
                   JObj [("document_id", JStr doc_id);
                         ("file_name", JStr (file_name info))]) db)).

(** ** The server: requests handled one after the other *)

Inductive Request : Type :=
  | POST_upload (file : UploadFile)
  | POST_ask (q : DocumentQuery)
  | GET_documents.

Definition handle (r : Request) : M W json :=
  match r with
  | POST_upload file => upload_document file
  | POST_ask q => ask_question q
  | GET_documents => list_documents
  end.

(** The responses of a sequence of requests, each paired with its request,
    and the state they leave. *)
Fixpoint serve (rs : list Request) (s : State W)
  : list (Request * outcome json) * State W :=
  match rs with
  | [] => ([], s)
  | r :: rs' =>
      let '(o, s') := handle r s in
      let '(t, s'') := serve rs' s' in
      ((r, o) :: t, s'')
  end.

End Handlers.

(** ** What a run shows from outside *)

(** [j[k]] for a JSON object. *)
Definition json_field (k : string) (j : json) : option json :=
  match j with
  | JObj fields => Dict.get k fields
  | _ => None
  end.

(** The identifiers drawn from [uuid4], as text, in drawing order. *)
Definition issued_ids (cs : list call) : list string :=
  omap (λ c, match c with
             | Call_uuid4 u => Some (UUID.str u)
             | _ => None
             end) cs.

(** The prompts handed to the generative model, in order. *)
Definition prompts_sent (cs : list call) : list string :=
  omap (λ c, match c with
             | Call_generate_content _ prompt => Some prompt
             | _ => None
             end) cs.

(** The [(document_id, file name)] of every upload that was answered with
    a success body, in order. *)
Definition uploaded (t : list (Request * outcome json))
  : list (string * string) :=
  omap (λ '(r, o),
          match r, o with
          | POST_upload file, Return j =>
              match json_field "document_id" j with
              | Some (JStr id) => Some (id, filename file)
              | _ => None
              end
          | _, _ => None
          end) t.

(** One element of the body of [GET /documents]. *)
Definition listing_entry (entry : string * string) : json :=
  JObj [("document_id", JStr entry.1); ("file_name", JStr entry.2)].

(** The [(document_id, file name)] pairs the store holds, in its order. *)
Definition store_entries (db : list (string * DocumentRecord))
  : list (string * string) :=
  map (λ '(doc_id, info), (doc_id, file_name info)) db.

(** ** A small concrete world

    Used to run the handlers on concrete requests: a counter in place of the
    entropy source, a flat map from paths to text for the file system, a
    pipeline that wraps the uploaded text in brackets, and a model that
    repeats a fixed answer. *)

Module Sim.

Record World : Type := {
  next_uuid : N;
  files : gmap string string;
}.

Definition no_such_file (path : string) : exn :=
  Exception ("[Errno 2] No such file or directory: '" +:+ path +:+ "'").

Definition sim_uuid4 (w : World) : N * World :=
  (next_uuid w, {| next_uuid := next_uuid w + 1; files := files w |}).

(** Only [UPLOAD_DIRECTORY] exists: a path with a further directory
    component cannot be opened for writing. *)
Definition sim_open_wb_write (path : string) (bytes : list Byte.byte)
  (w : World) : outcome unit * World :=
  if bool_decide (path = UPLOAD_DIRECTORY +:+ "/" +:+ os_path_basename path)
  then (Return (),
        {| next_uuid := next_uuid w;
           files := <[path := String.string_of_list_byte bytes]> (files w) |})
  else (Raise (no_such_file path), w).

(** The pipeline raises on a missing input and on an input that starts with
    an exclamation mark, writes nothing for an empty input, and otherwise
    writes its artifact. *)
Definition sim_Pipeline_run (cfg : PipelineConfigs) (w : World)
  : outcome unit * World :=
  match files w !! input_path cfg with
  | None => (Raise (no_such_file (input_path cfg)), w)
  | Some EmptyString => (Return (), w)
  | Some (String "!" _) => (Raise (Exception "partition request failed"), w)
  | Some text =>
      (Return (),
       {| next_uuid := next_uuid w;
          files := <[output_dir cfg +:+ "/" +:+ os_path_basename (input_path cfg) +:+ ".json"
                     := "[" +:+ text +:+ "]"]> (files w) |})
  end.

Definition sim_os_path_exists (path : string) (w : World) : bool :=
  bool_decide (is_Some (files w !! path)).

Definition sim_open_r_read (path : string) (w : World)
  : outcome string * World :=
  match files w !! path with
  | Some text => (Return text, w)
  | None => (Raise (no_such_file path), w)
  end.

Definition sim_generate_content (m : GenerativeModel) (prompt : string)
  (w : World) : outcome string * World :=
  match model_api_key m with
  | Some _ => (Return "It says hello.", w)
  | None => (Raise (Exception "API key not valid"), w)
  end.

#[global] Instance collaborators : Collaborators World := {|
  uuid4 := sim_uuid4;
  open_wb_write := sim_open_wb_write;
  Pipeline_run := sim_Pipeline_run;
  os_path_exists := sim_os_path_exists;
  open_r_read := sim_open_r_read;
  generate_content := sim_generate_content;
|}.

Definition settings : Settings :=
  {| UNSTRUCTUREDIO_API_KEY := Some "u-key";
     UNSTRUCTUREDIO_ENDPOINT := Some "https://api.unstructured.example/general/v0/general";
     GEMINI_API_KEY := Some "g-key" |}.

Definition world0 : World := {| next_uuid := 0; files := ∅ |}.

Definition start : State World := initial_state world0.

Definition bytes (s : string) : list Byte.byte := String.list_byte_of_string s.

Definition hello_pdf : UploadFile :=
  {| filename := "hello.pdf"; data := bytes "hello" |}.

Definition empty_txt : UploadFile :=
  {| filename := "empty.txt"; data := [] |}.

Definition broken_pdf : UploadFile :=
  {| filename := "broken.pdf"; data := bytes "!broken" |}.

Definition nested_pdf : UploadFile :=
  {| filename := "a/b.pdf"; data := bytes "hello" |}.

(** A session: one good upload, two that fail, one with an empty file,
    then a listing and two questions. *)
Definition session : list Request :=
  [POST_upload hello_pdf;
   POST_upload broken_pdf;
   POST_upload nested_pdf;
   POST_upload empty_txt;
   GET_documents;
   POST_ask {| document_id := UUID.str 0; query := "What does it say?" |};
   POST_ask {| document_id := UUID.str 1; query := "What does it say?" |}].

End Sim.

(** ** The allowed origins *)

Module Origins.

(** [s.split(sep)] for a one-character [sep]: the text between the
    separators, empty pieces included. *)
Fixpoint split (sep : ascii) (s : string) : list string :=
  match s with
  | EmptyString => [EmptyString]
  | String c r =>
      if bool_decide (c = sep) then EmptyString :: split sep r
      else match split sep r with
           | piece :: pieces => String c piece :: pieces
           | [] => [String c EmptyString]
           end
  end.

(** [sep.join(pieces)] *)
Fixpoint join (sep : ascii) (pieces : list string) : string :=
  match pieces with
  | [] => EmptyString
  | [piece] => piece
  | piece :: rest => piece +:+ String sep (join sep rest)
  end.

(** [c in s] *)
Fixpoint has_char (c : ascii) (s : string) : bool :=
  match s with
  | EmptyString => false
  | String x r => bool_decide (x = c) || has_char c r
  end.

(** [os.getenv('ALLOWED_ORIGINS', 'http://localhost:3000').split(',')],
    from the value of the environment variable, if it is set. *)
Definition ALLOWED_ORIGINS (value : option string) : list string :=
  split "," (default "http://localhost:3000" value).

End Origins.

(** ** [POST /signup] *)

(** The request body, [models.User]. *)
Record User : Type := {
  email : string;
  password : string;
}.

(** Modelled from the spec: [utils.create_user] is the external
    user-management collaborator; [main.py] reads from its result the
    attributes [id], [email], [created_at] (through [isoformat()]) and
    [confirmed_at], and tests the result itself for truth. *)
Record CreatedUser : Type := {
  response_id : string;
  response_email : string;
  response_created_at_isoformat : string;
  response_confirmed_at : option string;
}.

(** [utils.create_user(email, password)]: raises, or returns a result that
    is falsy ([None]) or a created user. *)
Class UserManagement (W : Type) : Type := {
  create_user : string → string → W → outcome (option CreatedUser) * W;
}.

Section SignUp.
Context {W : Type} `{!UserManagement W}.

(** A call outside the document workflow: it runs on the world and is not
    entered in the workflow's log. *)
Definition on_world {A} (op : W → outcome A * W) : M W A :=
  λ s, let '(r, w') := op (world s) in
       (r, {| documents_db := documents_db s; world := w';
              calls := calls s |}).

Definition sign_up (user : User) : M W json :=
  try_except
    (let* response := on_world (create_user (email user) (password user)) in
     match response with
     | None => raise (HTTPException 400 "User creation failed.")
     | Some created =>
         match response_confirmed_at created with
         | None => raise (HTTPException 400 "User creation failed.")
         | Some _ =>
             ret (JObj [("message", JStr "User created successfully");
                        ("data",
                         JObj [("id", JStr (response_id created));
                               ("email", JStr (response_email created));
                               ("created_at",
                                JStr (response_created_at_isoformat created))])])
         end
     end)
    (λ e, raise (HTTPException 500 (str_exn e))).

End SignUp.

(** ** More observers of a run *)

Definition is_upload (r : Request) : bool :=
  match r with
  | POST_upload _ => true
  | _ => false
  end.

(** ** More of the concrete world *)

Module SimMore.

(** A file system on which the artifact is there but is not valid UTF-8:
    every read raises. *)
Definition undecodable : Collaborators Sim.World := {|
  uuid4 := Sim.sim_uuid4;
  open_wb_write := Sim.sim_open_wb_write;
  Pipeline_run := Sim.sim_Pipeline_run;
  os_path_exists := Sim.sim_os_path_exists;
  open_r_read := λ path w,
    (Raise (Exception "'utf-8' codec can't decode byte 0xff in position 0: invalid start byte"), w);
  generate_content := Sim.sim_generate_content;
|}.

(** A generative model that is out of quota. *)
Definition out_of_quota : Collaborators Sim.World := {|
  uuid4 := Sim.sim_uuid4;
  open_wb_write := Sim.sim_open_wb_write;
  Pipeline_run := Sim.sim_Pipeline_run;
  os_path_exists := Sim.sim_os_path_exists;
  open_r_read := Sim.sim_open_r_read;
  generate_content := λ m prompt w, (Raise (Exception "429 Resource exhausted"), w);
|}.

(** User management: an empty password is refused with an error, the
    address [pending@example.org] is created but not confirmed, the address
    [nobody@example.org] gives no result, any other is created. *)
Definition sim_create_user (address pass : string) (w : Sim.World)
  : outcome (option CreatedUser) * Sim.World :=
  if bool_decide (pass = EmptyString)
  then (Raise (Exception "Password should be at least 6 characters"), w)
  else if bool_decide (address = "nobody@example.org")
  then (Return None, w)
  else
    (Return (Some {| response_id := UUID.str (Sim.next_uuid w);
                     response_email := address;
                     response_created_at_isoformat := "2024-11-05T10:00:00+00:00";
                     response_confirmed_at :=
                       if bool_decide (address = "pending@example.org")
                       then None else Some "2024-11-05T10:00:00+00:00" |}),
     {| Sim.next_uuid := Sim.next_uuid w + 1; Sim.files := Sim.files w |}).

#[global] Instance users : UserManagement Sim.World := {|
  create_user := sim_create_user;
|}.

(** The store after one upload, in a world whose entropy source is about
    to repeat the identifier of that upload. *)
Definition repeating : State Sim.World :=
  {| documents_db :=
       documents_db (upload_document Sim.settings Sim.hello_pdf Sim.start).2;
     world := Sim.world0;
     calls := [] |}.

Definition other_pdf : UploadFile :=
  {| filename := "other.pdf"; data := Sim.bytes "other" |}.


End SimMore.

(** * Properties *)

(** ** Strings and paths *)

#[local] Arguments String.append !_ _ / : simpl nomatch.

Lemma string_app_assoc (a b c : string) : (a +:+ b) +:+ c = a +:+ (b +:+ c).
Proof. induction a as [|x a IH]; cbn; [done | by rewrite IH]. Qed.

Lemma string_app_nil_r (a : string) : a +:+ EmptyString = a.
Proof. induction a as [|x a IH]; cbn; [done | by rewrite IH]. Qed.

Lemma has_sep_app (a b : string) :
  Str.has_sep (a +:+ b) = Str.has_sep a || Str.has_sep b.
Proof.
  induction a as [|x a IH]; cbn; [done|].
  rewrite IH. by destruct (Str.is_sep x).
Qed.

Lemma has_sep_all_chars (s : string) :
  Str.all_chars (λ c, negb (Str.is_sep c)) s = negb (Str.has_sep s).
Proof.
  induction s as [|x s IH]; cbn; [done|].
  rewrite IH. by destruct (Str.is_sep x).
Qed.

Lemma all_chars_app P (a b : string) :
  Str.all_chars P (a +:+ b) = Str.all_chars P a && Str.all_chars P b.
Proof.
  induction a as [|x a IH]; cbn; [done|].
  rewrite IH. by destruct (P x).
Qed.

Lemma all_chars_substring P (s : string) (n m : nat) :
  Str.all_chars P s = true → Str.all_chars P (String.substring n m s) = true.
Proof.
  revert n m. induction s as [|x s IH]; intros n m Hs.
  - by destruct n, m.
  - cbn in Hs. apply andb_true_iff in Hs as [Hx Hs].
    destruct n as [|n]; cbn.
    + destruct m as [|m]; cbn; [done|]. rewrite Hx. by apply IH.
    + by apply IH.
Qed.

Lemma startswith_sep_has_sep (s : string) :
  Str.has_sep s = false → Str.startswith_sep s = false.
Proof. destruct s as [|x s]; cbn; [done|]. by destruct (Str.is_sep x). Qed.

Lemma os_path_basename_no_sep (p : string) :
  Str.has_sep p = false → os_path_basename p = p.
Proof.
  destruct p as [|x p]; cbn; [done|].
  destruct (Str.is_sep x); cbn; [done|]. by intros ->.
Qed.

Lemma os_path_basename_has_no_sep (p : string) :
  Str.has_sep (os_path_basename p) = false.
Proof.
  induction p as [|x p IH]; cbn; [done|].
  destruct (Str.has_sep p) eqn:Hp; [done|].
  destruct (Str.is_sep x) eqn:Hx; [done|]. cbn. by rewrite Hx, Hp.
Qed.

(** The base name of [a/b] is the base name of [b]. *)
Lemma os_path_basename_app_sep (a b : string) :
  os_path_basename (a +:+ String "/" b) = os_path_basename b.
Proof.
  induction a as [|x a IH]; cbn.
  - destruct (Str.has_sep b) eqn:Hb; [done|].
    by rewrite os_path_basename_no_sep.
  - rewrite has_sep_app. cbn. by rewrite orb_true_r.
Qed.

Lemma os_path_join_relative (a b : string) :
  a ≠ EmptyString → Str.endswith_sep a = false → Str.startswith_sep b = false →
  os_path_join a b = a +:+ "/" +:+ b.
Proof.
  intros Ha Hend Hb. unfold os_path_join. rewrite Hb, Hend.
  by rewrite bool_decide_eq_false_2.
Qed.

Lemma string_length_app (a b : string) :
  String.length (a +:+ b) = (String.length a + String.length b)%nat.
Proof. induction a as [|x a IH]; simpl; [done | by rewrite IH]. Qed.

(** The template is [prompt_head], the content, [prompt_middle], the
    question, [prompt_tail]. *)
Lemma prompt_of_pieces (C Q : string) :
  prompt_of C Q = prompt_head +:+ C +:+ prompt_middle +:+ Q +:+ prompt_tail.
Proof.
  unfold prompt_of, prompt_head, prompt_middle, prompt_tail, Str.nl.
  reflexivity.
Qed.

(** ** The textual form of a UUID *)

Lemma hex_digit_not_sep (d : N) : Str.is_sep (UUID.hex_digit d) = false.
Proof.
  destruct d as [|p]; [done|].
  do 4 (try (destruct p as [p|p|]; try done)).
Qed.

Lemma hex_fixed_no_sep (k : nat) (n : N) :
  Str.has_sep (UUID.hex_fixed k n) = false.
Proof.
  revert n. induction k as [|k IH]; intros n; cbn; [done|].
  rewrite has_sep_app, IH. cbn. by rewrite hex_digit_not_sep.
Qed.

Lemma substring_no_sep (s : string) (n m : nat) :
  Str.has_sep s = false → Str.has_sep (String.substring n m s) = false.
Proof.
  intros Hs. apply negb_true_iff. rewrite <- has_sep_all_chars.
  apply all_chars_substring. rewrite has_sep_all_chars. by rewrite Hs.
Qed.

(** A UUID's text never contains a path separator. *)
Lemma uuid_str_no_sep (u : N) : Str.has_sep (UUID.str u) = false.
Proof.
  unfold UUID.str.
  repeat (rewrite has_sep_app; cbn -[UUID.hex_fixed String.substring N.modulo N.pow]).
  rewrite !substring_no_sep by apply hex_fixed_no_sep. done.
Qed.

Lemma startswith_sep_app_no_sep (a b : string) :
  Str.has_sep a = false → Str.startswith_sep b = false →
  Str.startswith_sep (a +:+ b) = false.
Proof.
  destruct a as [|x a]; cbn; [done|]. by destruct (Str.is_sep x).
Qed.

Lemma os_path_basename_app_r (a b : string) :
  Str.has_sep b = true → os_path_basename (a +:+ b) = os_path_basename b.
Proof.
  intros Hb. induction a as [|x a IH]; simpl; [done|].
  by rewrite has_sep_app, Hb, orb_true_r.
Qed.

(** The path an upload is written to. *)
Lemma upload_path_eq (u : N) (name : string) :
  upload_path (UUID.str u) name
  = UPLOAD_DIRECTORY +:+ "/" +:+ UUID.str u +:+ "_" +:+ name.
Proof.
  unfold upload_path. apply os_path_join_relative; [done | reflexivity |].
  apply startswith_sep_app_no_sep; [apply uuid_str_no_sep | reflexivity].
Qed.

Lemma upload_path_basename (u : N) (name : string) :
  os_path_basename (upload_path (UUID.str u) name)
  = if Str.has_sep name then os_path_basename name
    else UUID.str u +:+ "_" +:+ name.
Proof.
  rewrite upload_path_eq.
  change (UPLOAD_DIRECTORY +:+ "/" +:+ UUID.str u +:+ "_" +:+ name)
    with (UPLOAD_DIRECTORY +:+ String "/" (UUID.str u +:+ String "_" name)).
  rewrite os_path_basename_app_sep.
  destruct (Str.has_sep name) eqn:Hname.
  - rewrite os_path_basename_app_r; [|simpl; by rewrite Hname].
    simpl. by rewrite Hname.
  - apply os_path_basename_no_sep.
    rewrite has_sep_app, uuid_str_no_sep. simpl. by rewrite Hname.
Qed.

(** The path the artifact is looked up at. *)
Lemma output_file_of_eq (path : string) :
  output_file_of path
  = OUTPUT_DIRECTORY +:+ "/" +:+ os_path_basename path +:+ ".json".
Proof.
  unfold output_file_of. rewrite os_path_join_relative; [| done | reflexivity |].
  - by rewrite !string_app_assoc.
  - apply startswith_sep_has_sep, os_path_basename_has_no_sep.
Qed.

(** ** The dict *)

Section DictFacts.
Context {V : Type}.
Implicit Types (d : list (string * V)) (k : string) (v : V).

Lemma dict_get_None d k : Dict.get k d = None ↔ k ∉ Dict.keys d.
Proof.
  unfold Dict.keys. induction d as [|[k' v'] d IH]; cbn.
  - split; [intros _; apply not_elem_of_nil | done].
  - rewrite not_elem_of_cons. case_decide; [split; [done | intros [? _]; congruence] | tauto].
Qed.

Lemma dict_get_Some_elem d k v : Dict.get k d = Some v → (k, v) ∈ d.
Proof.
  induction d as [|[k' v'] d IH]; cbn; [done|].
  case_decide; [intros [= <-]; subst; left | right; auto].
Qed.

Lemma dict_contains_keys d k : Dict.contains k d = true ↔ k ∈ Dict.keys d.
Proof.
  unfold Dict.contains. destruct (Dict.get k d) eqn:Hg.
  - split; [intros _|done]. apply dec_stable. intros Hn.
    apply dict_get_None in Hn. congruence.
  - split; [done|]. intros Hin. by apply dict_get_None in Hg.
Qed.

Lemma dict_contains_false d k : Dict.contains k d = false ↔ k ∉ Dict.keys d.
Proof. rewrite <- dict_contains_keys. by destruct (Dict.contains k d). Qed.

Lemma dict_get_set_eq d k v : Dict.get k (Dict.set k v d) = Some v.
Proof.
  induction d as [|[k' v'] d IH]; cbn.
  - by rewrite decide_True.
  - case_decide; cbn; [by rewrite decide_True | by rewrite decide_False].
Qed.

Lemma dict_get_set_ne d k k' v :
  k ≠ k' → Dict.get k' (Dict.set k v d) = Dict.get k' d.
Proof.
  intros Hne. induction d as [|[k0 v0] d IH]; cbn.
  - by rewrite decide_False.
  - destruct (decide (k = k0)) as [->|]; cbn.
    + by rewrite !decide_False.
    + by rewrite IH.
Qed.

(** A new key goes to the end. *)
Lemma dict_set_fresh d k v : k ∉ Dict.keys d → Dict.set k v d = d ++ [(k, v)].
Proof.
  unfold Dict.keys. induction d as [|[k' v'] d IH]; cbn; [done|].
  rewrite not_elem_of_cons. intros [Hne Hd].
  rewrite decide_False by done. by rewrite IH.
Qed.

(** Assignment never changes the order or the number of the old keys. *)
Lemma dict_keys_set d k v :
  Dict.keys (Dict.set k v d) =
  if decide (k ∈ Dict.keys d) then Dict.keys d else Dict.keys d ++ [k].
Proof.
  case_decide as Hin.
  - unfold Dict.keys in *. induction d as [|[k' v'] d IH]; cbn.
    + by apply elem_of_nil in Hin.
    + case_decide; subst; cbn; [done|].
      f_equal. apply IH. cbn in Hin. apply elem_of_cons in Hin as [?|?]; [congruence | done].
  - rewrite dict_set_fresh by done. unfold Dict.keys. by rewrite fmap_app.
Qed.

Lemma dict_keys_set_NoDup d k v :
  NoDup (Dict.keys d) → NoDup (Dict.keys (Dict.set k v d)).
Proof.
  intros Hd. rewrite dict_keys_set. case_decide; [done|].
  apply NoDup_app. split_and!; [done | | apply NoDup_singleton].
  intros x Hx ->%list_elem_of_singleton. done.
Qed.

Lemma dict_get_app_Some d d' k v :
  Dict.get k d = Some v → Dict.get k (d ++ d') = Some v.
Proof.
  induction d as [|[k' v'] d IH]; cbn; [done|]. case_decide; auto.
Qed.


End DictFacts.

(** ** The handlers, one request at a time *)

Lemma issued_ids_app (cs cs' : list call) :
  issued_ids (cs ++ cs') = issued_ids cs ++ issued_ids cs'.
Proof. apply omap_app. Qed.

Lemma prompts_sent_app (cs cs' : list call) :
  prompts_sent (cs ++ cs') = prompts_sent cs ++ prompts_sent cs'.
Proof. apply omap_app. Qed.

#[local] Arguments UUID.str : simpl never.
#[local] Opaque UUID.str.
#[local] Arguments upload_path : simpl never.
#[local] Arguments output_file_of : simpl never.
#[local] Arguments pipeline_configs : simpl never.
#[local] Arguments prompt_of : simpl never.
#[local] Arguments model : simpl never.
#[local] Arguments str_exn : simpl never.

Ltac unfold_handlers :=
  unfold upload_document, ask_question, list_documents,
    process_document_with_unstructured, query_document_with_gemini,
    new_file_id, db_setitem, db_getitem, read_db, external,
    try_except, bind, ret, raise in *.

Section HandlerFacts.
Context {W : Type} `{!Collaborators W} (settings : Settings).
Implicit Types (s : State W) (file : UploadFile) (q : DocumentQuery).

(** What one upload does to the store and to the call log. *)
Lemma upload_document_spec file s o s' :
  upload_document settings file s = (o, s') →
  let u := (uuid4 (world s)).1 in
  let id := UUID.str u in
  (∃ rest, calls s' = calls s ++ Call_uuid4 u :: rest ∧ issued_ids rest = [] ∧
           prompts_sent rest = []) ∧
  match o with
  | Return j =>
      j = JObj [("message", JStr "Document uploaded and processed successfully");
                ("document_id", JStr id)] ∧
      ∃ c, documents_db s' =
           Dict.set id {| file_name := filename file;
                          file_path := upload_path id (filename file);
                          content := c |} (documents_db s)
  | Raise e =>
      (∃ msg, e = HTTPException 500 msg) ∧ documents_db s' = documents_db s
  end.
Proof.
  intros Hrun. unfold_handlers.
  destruct (uuid4 (world s)) as [u w1]. simpl in *.
  repeat case_match; simplify_eq/=;
    (split; [eexists; rewrite <- ?app_assoc; simpl; done | eauto]).
Qed.

(** A query never touches the store and draws no identifier. *)
Lemma ask_question_spec q s o s' :
  ask_question settings q s = (o, s') →
  documents_db s' = documents_db s ∧
  ∃ rest, calls s' = calls s ++ rest ∧ issued_ids rest = [].
Proof.
  intros Hrun. unfold_handlers. simpl in *.
  repeat case_match; simplify_eq/=;
    (split; [done|]);
    first [ by exists []; rewrite app_nil_r | by eexists ].
Qed.

(** A query for a key the store does not have stops at the guard. *)
Lemma ask_question_missing_key q s :
  document_id q ∉ Dict.keys (documents_db s) →
  ask_question settings q s =
    (Raise (HTTPException 404 "Document not found"), s).
Proof.
  intros Hq%dict_contains_false. unfold_handlers. simpl. by rewrite Hq.
Qed.

(** The listing is a pure read. *)
Lemma list_documents_spec s :
  list_documents s =
  (Return (JArr (map listing_entry (store_entries (documents_db s)))), s).
Proof.
  unfold_handlers. do 2 f_equal. f_equal.
  unfold store_entries. rewrite map_map.
  apply map_ext. by intros [doc_id info].
Qed.

(** The extraction helper when the pipeline leaves no artifact behind. *)
Lemma process_document_missing_artifact (path : string) s w :
  Pipeline_run (pipeline_configs settings path) (world s) = (Return (), w) →
  os_path_exists (output_file_of path) w = false →
  (process_document_with_unstructured settings path s).1 = Return EmptyString.
Proof.
  intros Hrun Hex. unfold_handlers. simpl. rewrite Hrun. simpl. by rewrite Hex.
Qed.

End HandlerFacts.

(** ** Sequences of requests *)

Section RunFacts.
Context {W : Type} `{!Collaborators W} (settings : Settings).
Implicit Types (s : State W) (r : Request) (rs : list Request).

Lemma store_entries_keys (db : list (string * DocumentRecord)) :
  (store_entries db).*1 = Dict.keys db.
Proof.
  unfold store_entries, Dict.keys. induction db as [|[k v] db IH];
    [done | by rewrite !fmap_cons, <- IH].
Qed.

Lemma store_entries_app (db db' : list (string * DocumentRecord)) :
  store_entries (db ++ db') = store_entries db ++ store_entries db'.
Proof. apply map_app. Qed.

(** One request: the log only grows, and the keys of the store stay
    pairwise distinct and among the identifiers drawn so far. *)
Lemma handle_invariant r s o s' :
  handle settings r s = (o, s') →
  (∃ new, calls s' = calls s ++ new) ∧
  (NoDup (Dict.keys (documents_db s)) → NoDup (Dict.keys (documents_db s'))) ∧
  (Dict.keys (documents_db s) ⊆ issued_ids (calls s) →
   Dict.keys (documents_db s') ⊆ issued_ids (calls s')).
Proof.
  destruct r as [file|q|]; simpl; intros Hrun.
  - apply upload_document_spec in Hrun as [(rest & Hcalls & Hrest & _) Ho].
    split; [eauto|]. rewrite Hcalls, issued_ids_app. simpl. rewrite Hrest.
    destruct o as [j|e].
    + destruct Ho as (_ & c & ->). split.
      * apply dict_keys_set_NoDup.
      * intros Hsub. rewrite dict_keys_set. case_decide.
        -- intros k Hk. apply elem_of_app. left. by apply Hsub.
        -- intros k [Hk| ->%list_elem_of_singleton]%elem_of_app;
             apply elem_of_app; [left; by apply Hsub | right; left].
    + destruct Ho as (_ & ->). split; [done|].
      intros Hsub k Hk. apply elem_of_app. left. by apply Hsub.
  - apply ask_question_spec in Hrun as (-> & rest & -> & Hrest).
    split; [eauto|]. rewrite issued_ids_app, Hrest, app_nil_r. done.
  - rewrite list_documents_spec in Hrun. simplify_eq.
    split; [by exists []; rewrite app_nil_r | done].
Qed.

Lemma serve_invariant rs s t s' :
  serve settings rs s = (t, s') →
  (∃ new, calls s' = calls s ++ new) ∧
  (NoDup (Dict.keys (documents_db s)) → NoDup (Dict.keys (documents_db s'))) ∧
  (Dict.keys (documents_db s) ⊆ issued_ids (calls s) →
   Dict.keys (documents_db s') ⊆ issued_ids (calls s')).
Proof.
  revert s t s'. induction rs as [|r rs IH]; simpl; intros s t s' Hrun.
  - simplify_eq. split; [by exists []; rewrite app_nil_r | done].
  - destruct (handle settings r s) as [o s1] eqn:Hstep.
    destruct (serve settings rs s1) as [t1 s2] eqn:Hrest. simplify_eq.
    apply handle_invariant in Hstep as ([new1 Hc1] & Hn1 & Hk1).
    apply IH in Hrest as ([new2 Hc2] & Hn2 & Hk2).
    split_and!; [|auto..].
    exists (new1 ++ new2). by rewrite Hc2, Hc1, app_assoc.
Qed.

(** One request when no identifier is ever drawn twice: the store grows at
    its end by exactly the document the response announces. *)
Lemma handle_fresh r s o s' :
  handle settings r s = (o, s') →
  Dict.keys (documents_db s) ⊆ issued_ids (calls s) →
  NoDup (issued_ids (calls s')) →
  ∃ new added,
    calls s' = calls s ++ new ∧
    documents_db s' = documents_db s ++ added ∧
    store_entries added = uploaded [(r, o)] ∧
    Dict.keys added ⊆ issued_ids new.
Proof.
  destruct r as [file|q|]; simpl; intros Hrun Hsub Hnd.
  - apply upload_document_spec in Hrun as [(rest & Hcalls & Hrest & _) Ho].
    rewrite Hcalls, issued_ids_app in Hnd. simpl in Hnd. rewrite Hrest in Hnd.
    apply NoDup_app in Hnd as (_ & Hfresh & _).
    exists (Call_uuid4 (uuid4 (world s)).1 :: rest).
    destruct o as [j|e].
    + destruct Ho as (-> & c & ->).
      eexists [(_, _)]. split; [done|]. split.
      * apply dict_set_fresh. intros Hin. apply (Hfresh _ (Hsub _ Hin)). left.
      * split; [done|]. simpl. rewrite Hrest. done.
    + destruct Ho as (_ & ->). exists []. rewrite app_nil_r.
      split_and!; [done..|]. apply list_subseteq_nil.
  - apply ask_question_spec in Hrun as (-> & rest & -> & Hrest).
    exists rest, []. rewrite app_nil_r. split_and!; [done..|].
    apply list_subseteq_nil.
  - rewrite list_documents_spec in Hrun. simplify_eq.
    exists [], []. rewrite !app_nil_r. split_and!; [done..|].
    apply list_subseteq_nil.
Qed.

Lemma uploaded_cons x (t : list (Request * outcome json)) :
  uploaded (x :: t) = uploaded [x] ++ uploaded t.
Proof. apply (omap_app _ [x] t). Qed.

Lemma serve_fresh rs s t s' :
  serve settings rs s = (t, s') →
  Dict.keys (documents_db s) ⊆ issued_ids (calls s) →
  NoDup (issued_ids (calls s')) →
  ∃ new added,
    calls s' = calls s ++ new ∧
    documents_db s' = documents_db s ++ added ∧
    store_entries added = uploaded t ∧
    Dict.keys added ⊆ issued_ids new.
Proof.
  revert s t s'. induction rs as [|r rs IH]; simpl; intros s t s' Hrun Hsub Hnd.
  - simplify_eq. exists [], []. rewrite !app_nil_r.
    split_and!; [done..|]. apply list_subseteq_nil.
  - destruct (handle settings r s) as [o s1] eqn:Hstep.
    destruct (serve settings rs s1) as [t1 s2] eqn:Hrest. simplify_eq.
    pose proof (serve_invariant _ _ _ _ Hrest) as ([new2' Hc2'] & _ & _).
    pose proof (handle_invariant _ _ _ _ Hstep) as (_ & _ & Hk1).
    assert (NoDup (issued_ids (calls s1))) as Hnd1.
    { rewrite Hc2', issued_ids_app in Hnd. by apply NoDup_app in Hnd as (? & _). }
    destruct (handle_fresh _ _ _ _ Hstep Hsub Hnd1)
      as (new1 & added1 & Hc1 & Hd1 & He1 & Ha1).
    destruct (IH _ _ _ Hrest (Hk1 Hsub) Hnd)
      as (new2 & added2 & Hc2 & Hd2 & He2 & Ha2).
    exists (new1 ++ new2), (added1 ++ added2). split_and!.
    + by rewrite Hc2, Hc1, app_assoc.
    + by rewrite Hd2, Hd1, app_assoc.
    + by rewrite store_entries_app, He1, He2, (uploaded_cons (r, o) t1).
    + unfold Dict.keys in *. rewrite fmap_app, issued_ids_app.
      intros k [Hk|Hk]%elem_of_app; apply elem_of_app; auto.
Qed.

End RunFacts.

(** * The specification's claims *)

Section Claims.
Context {W : Type} `{!Collaborators W} (settings : Settings).
Implicit Types (s : State W) (file : UploadFile) (q : DocumentQuery).

(** C1 (as amended).  When the partitioning invocation raises, ingestion
    fails as a whole: the store is left as it was, and the caller receives
    an HTTP 500 whose detail is ["Error processing document: "] followed by
    the text of the pipeline's error. *)
Theorem upload_fails_when_pipeline_raises file s u w1 w2 e w3 :
  uuid4 (world s) = (u, w1) →
  open_wb_write (upload_path (UUID.str u) (filename file)) (data file) w1
    = (Return (), w2) →
  Pipeline_run
    (pipeline_configs settings (upload_path (UUID.str u) (filename file))) w2
    = (Raise e, w3) →
  ∃ s',
    upload_document settings file s =
      (Raise (HTTPException 500 ("Error processing document: " +:+ str_exn e)),
       s') ∧
    documents_db s' = documents_db s.
Proof.
  intros Hu Hw Hp. unfold_handlers. rewrite Hu. simpl. rewrite Hw. simpl.
  rewrite Hp. simpl. by eexists.
Qed.

(** C2.  A query whose [document_id] is not a key of the store is answered
    with 404 "Document not found"; the state, and with it the log of
    external calls, is exactly what it was, so the generative model was not
    invoked. *)
Theorem ask_unknown_document_is_not_found q s :
  document_id q ∉ Dict.keys (documents_db s) →
  ask_question settings q s =
    (Raise (HTTPException 404 "Document not found"), s) ∧
  calls (ask_question settings q s).2 = calls s ∧
  prompts_sent (calls (ask_question settings q s).2) = prompts_sent (calls s).
Proof.
  intros Hq. by rewrite ask_question_missing_key.
Qed.

(** C4.  The prompt built from content [C] and question [Q] contains both
    verbatim; its length is theirs plus the fixed template, so nothing is
    cut; and it is this prompt that the query helper and [/ask] hand to the
    model. *)
Theorem prompt_contains_content_and_question (C Q : string) :
  Str.substring_of C (prompt_of C Q) ∧
  Str.substring_of Q (prompt_of C Q) ∧
  String.length (prompt_of C Q)
    = (String.length C + String.length Q + 276)%nat ∧
  (∀ s, calls (query_document_with_gemini settings C Q s).2
        = calls s ++ [Call_generate_content (model settings) (prompt_of C Q)]) ∧
  (∀ q s doc,
     Dict.get (document_id q) (documents_db s) = Some doc →
     content doc = C → query q = Q →
     calls (ask_question settings q s).2
     = calls s ++ [Call_generate_content (model settings) (prompt_of C Q)]).
Proof.
  split_and!.
  - exists prompt_head, (prompt_middle +:+ Q +:+ prompt_tail).
    apply prompt_of_pieces.
  - exists (prompt_head +:+ C +:+ prompt_middle), prompt_tail.
    rewrite prompt_of_pieces. by rewrite !string_app_assoc.
  - rewrite prompt_of_pieces, !string_length_app. simpl. lia.
  - intros s. unfold_handlers. simpl.
    by destruct (generate_content _ _ _) as [[r|e] w'].
  - intros q s doc Hdoc <- <-. unfold_handlers. simpl.
    unfold Dict.contains. rewrite Hdoc. simpl. rewrite Hdoc. simpl.
    by destruct (generate_content (model settings) _ (world s)) as [[r|e] w'];
      simpl; rewrite ?Hdoc.
Qed.

(** C5.  When the pipeline completes without raising and its artifact is
    absent, ingestion succeeds: the response carries the new identifier and
    the store receives, under that identifier, a record whose content is the
    empty string. *)
Theorem upload_with_missing_artifact_stores_empty_content file s u w1 w2 w3 :
  let file_id := UUID.str u in
  let path := upload_path file_id (filename file) in
  uuid4 (world s) = (u, w1) →
  open_wb_write path (data file) w1 = (Return (), w2) →
  Pipeline_run (pipeline_configs settings path) w2 = (Return (), w3) →
  os_path_exists (output_file_of path) w3 = false →
  upload_document settings file s =
    (Return (JObj [("message", JStr "Document uploaded and processed successfully");
                   ("document_id", JStr file_id)]),
     {| documents_db :=
          Dict.set file_id
            {| file_name := filename file; file_path := path;
               content := EmptyString |} (documents_db s);
        world := w3;
        calls := calls s ++
                 [Call_uuid4 u; Call_open_wb_write path (data file);
                  Call_Pipeline_run (pipeline_configs settings path);
                  Call_os_path_exists (output_file_of path)] |}).
Proof.
  intros file_id path Hu Hw Hp Hex. subst file_id path. unfold_handlers.
  rewrite Hu. simpl. rewrite Hw. simpl. rewrite Hp. simpl. rewrite Hex. simpl.
  rewrite <- !app_assoc. reflexivity.
Qed.

(** C10.  The [document_id] of a success response is the key under which
    the record was stored.  Right after the upload the record is found under
    it, with the upload's file name; [/ask] with it passes the guard and
    reads that record: it calls the model with the prompt built from the
    stored content and answers with the model's text and the stored file
    name, or, if the model raises, with an HTTP 500 that carries the
    model's error, never with a 404; and the listing has the pair of that
    id and file name. *)
Theorem uploaded_document_is_retrievable file s j s' :
  upload_document settings file s = (Return j, s') →
  ∃ id c,
    j = JObj [("message", JStr "Document uploaded and processed successfully");
              ("document_id", JStr id)] ∧
    Dict.get id (documents_db s') =
      Some {| file_name := filename file;
              file_path := upload_path id (filename file);
              content := c |} ∧
    (∀ question,
       let prompt := prompt_of c question in
       let after w' :=
         {| documents_db := documents_db s'; world := w';
            calls := calls s' ++
                     [Call_generate_content (model settings) prompt] |} in
       ask_question settings {| document_id := id; query := question |} s' =
         match generate_content (model settings) prompt (world s') with
         | (Return text, w') =>
             (Return (JObj [("query", JStr question);
                            ("response", JStr text);
                            ("document", JStr (filename file))]),
              after w')
         | (Raise e, w') =>
             (Raise (HTTPException 500
                       ("Error processing query with Gemini: " +:+ str_exn e)),
              after w')
         end) ∧
    (∃ listing,
       (list_documents s').1 = Return (JArr listing) ∧
       listing_entry (id, filename file) ∈ listing).
Proof.
  intros Hrun. apply upload_document_spec in Hrun as [_ (-> & c & Hdb)].
  set (id := UUID.str (uuid4 (world s)).1) in *.
  assert (Dict.get id (documents_db s') =
          Some {| file_name := filename file;
                  file_path := upload_path id (filename file);
                  content := c |}) as Hget
    by (rewrite Hdb; apply dict_get_set_eq).
  exists id, c. split_and!; [reflexivity | exact Hget | |].
  - intros question. unfold_handlers. simpl.
    unfold Dict.contains. rewrite Hget. simpl. rewrite Hget. simpl.
    destruct (generate_content (model settings) _ (world s')) as [[r|e] w'];
      simpl; rewrite ?Hget; reflexivity.
  - rewrite list_documents_spec. eexists. split; [reflexivity|].
    apply (list_elem_of_fmap_2 listing_entry).
    apply dict_get_Some_elem in Hget.
    apply (list_elem_of_fmap_2 (λ '(doc_id, info), (doc_id, file_name info)))
      in Hget. exact Hget.
Qed.

(** From start-up, the keys of the store are among the identifiers drawn. *)
Lemma served_keys_issued (w0 : W) (rs : list Request) :
  let s := (serve settings rs (initial_state w0)).2 in
  NoDup (Dict.keys (documents_db s)) ∧
  Dict.keys (documents_db s) ⊆ issued_ids (calls s).
Proof.
  simpl. destruct (serve settings rs (initial_state w0)) as [t s] eqn:Hrun.
  apply serve_invariant in Hrun as (_ & Hnd & Hsub). split.
  - apply Hnd, NoDup_nil_2.
  - apply Hsub, list_subseteq_nil.
Qed.

(** C3.  An upload that is answered with a failure leaves the store as it
    was.  From start-up, and as long as [uuid4] never returns the same
    identifier twice, the identifier generated for the failed upload is not
    a key of the store after any further requests: looking it up finds
    nothing, [/ask] with it is answered 404, and the listing has no entry
    for it. *)
Theorem failed_upload_leaves_no_record
    (w0 : W) (before after : list Request) file :
  let s1 := (serve settings before (initial_state w0)).2 in
  let id := UUID.str (uuid4 (world s1)).1 in
  let s2 := (upload_document settings file s1).2 in
  let s3 := (serve settings after s2).2 in
  (∃ e, (upload_document settings file s1).1 = Raise e) →
  documents_db s2 = documents_db s1 ∧
  (NoDup (issued_ids (calls s3)) →
   Dict.get id (documents_db s3) = None ∧
   (∀ question,
      ask_question settings {| document_id := id; query := question |} s3
      = (Raise (HTTPException 404 "Document not found"), s3)) ∧
   (∃ listing,
      (list_documents s3).1 = Return (JArr listing) ∧
      ∀ name, listing_entry (id, name) ∉ listing)).
Proof.
  intros s1 id s2 s3 [e He].
  pose proof (served_keys_issued w0 before) as [_ Hsub1]. fold s1 in Hsub1.
  destruct (upload_document settings file s1) as [o s2'] eqn:Hup.
  simpl in He. subst o s2. simpl in s3.
  apply upload_document_spec in Hup as [(rest & Hc2 & Hrest & _) [_ Hdb2]].
  fold id in Hc2. split; [exact Hdb2|]. intros Hnd.
  assert (Dict.keys (documents_db s2') ⊆ issued_ids (calls s2')) as Hsub2.
  { rewrite Hdb2, Hc2, issued_ids_app. intros k Hk.
    apply elem_of_app. left. by apply Hsub1. }
  destruct (serve settings after s2') as [t3 s3'] eqn:Hrun. subst s3.
  change ((t3, s3').2) with s3' in *.
  destruct (serve_fresh _ _ _ _ _ Hrun Hsub2 Hnd)
    as (new & added & Hc3 & Hdb3 & _ & Hadded).
  assert (id ∉ Dict.keys (documents_db s3')) as Hfresh.
  { rewrite Hc3, Hc2, !issued_ids_app in Hnd. simpl in Hnd.
    rewrite Hrest in Hnd. simpl in Hnd.
    apply NoDup_app in Hnd as (Hnd12 & Hnew & _).
    apply NoDup_app in Hnd12 as (_ & Hold & _).
    rewrite Hdb3, Hdb2. unfold Dict.keys in *. rewrite fmap_app.
    intros [Hin|Hin]%elem_of_app.
    - apply (Hold _ (Hsub1 _ Hin)). left.
    - apply (Hnew id); [apply elem_of_app; right; left | by apply Hadded]. }
  split_and!.
  - by apply dict_get_None.
  - intros question.
    by apply ask_question_missing_key.
  - rewrite list_documents_spec. eexists. split; [reflexivity|].
    intros name (entry & Heq & Hin)%list_elem_of_fmap.
    apply Hfresh. rewrite <- store_entries_keys.
    apply list_elem_of_fmap. exists entry. split; [|exact Hin].
    destruct entry as [k v]. unfold listing_entry in Heq. simpl in Heq.
    by simplify_eq.
Qed.



(** C7.  The listing is the store read in its own order, one
    [(document_id, file_name)] object per record, and reading it changes
    nothing.  From start-up, and as long as [uuid4] never returns the same
    identifier twice, that order is the order of insertion: the listing is
    the successful uploads, oldest first. *)
Theorem listing_is_the_store_in_insertion_order
    (w0 : W) (rs : list Request) :
  let t := (serve settings rs (initial_state w0)).1 in
  let s := (serve settings rs (initial_state w0)).2 in
  list_documents s =
    (Return (JArr (map (λ '(doc_id, info),
                         JObj [("document_id", JStr doc_id);
                               ("file_name", JStr (file_name info))])
                       (documents_db s))), s) ∧
  NoDup (Dict.keys (documents_db s)) ∧
  (NoDup (issued_ids (calls s)) →
   list_documents s = (Return (JArr (map listing_entry (uploaded t))), s)).
Proof.
  intros t s. split_and!.
  - reflexivity.
  - apply served_keys_issued.
  - intros Hnd. rewrite list_documents_spec.
    assert (store_entries (documents_db s) = uploaded t) as ->;
      [|reflexivity].
    subst t s.
    destruct (serve settings rs (initial_state w0)) as [t s] eqn:Hrun.
    change ((t, s).2) with s in *. change ((t, s).1) with t.
    destruct (serve_fresh _ _ _ _ _ Hrun (list_subseteq_nil _) Hnd)
      as (new & added & _ & Hdb & Hentries & _).
    simpl in Hdb. rewrite Hdb. exact Hentries.
Qed.

(** C9.  [/ask] and [/documents] leave the store exactly as it was,
    whatever they answer; an upload answered with a failure does too; an
    upload answered with success assigns one record under the identifier
    it drew and leaves what is stored under every other key alone.  From
    start-up, and as long as [uuid4] never returns the same identifier
    twice, the store only grows at its end: every record keeps its place
    and its value, and none disappears. *)
Theorem store_changes_only_by_successful_upload
    (w0 : W) (rs1 rs2 : list Request) :
  let s1 := (serve settings rs1 (initial_state w0)).2 in
  let s2 := (serve settings rs2 s1).2 in
  (∀ s q, documents_db (ask_question settings q s).2 = documents_db s) ∧
  (∀ s, (list_documents s).2 = s) ∧
  (∀ s file,
     match (upload_document settings file s).1 with
     | Raise _ =>
         documents_db (upload_document settings file s).2 = documents_db s
     | Return _ =>
         ∃ rec,
           documents_db (upload_document settings file s).2
           = Dict.set (UUID.str (uuid4 (world s)).1) rec (documents_db s) ∧
           ∀ k, k ≠ UUID.str (uuid4 (world s)).1 →
                Dict.get k (documents_db (upload_document settings file s).2)
                = Dict.get k (documents_db s)
     end) ∧
  (NoDup (issued_ids (calls s2)) →
   (∃ added, documents_db s2 = documents_db s1 ++ added) ∧
   ∀ id rec, Dict.get id (documents_db s1) = Some rec →
             Dict.get id (documents_db s2) = Some rec).
Proof.
  intros s1 s2. split_and!.
  - intros s q. destruct (ask_question settings q s) as [o s'] eqn:Hrun.
    by apply ask_question_spec in Hrun as [Hdb _].
  - intros s. by rewrite list_documents_spec.
  - intros s file.
    destruct (upload_document settings file s) as [o s'] eqn:Hrun.
    apply upload_document_spec in Hrun as [_ Ho]. simpl.
    destruct o as [j|e].
    + destruct Ho as (_ & c & ->). eexists. split; [reflexivity|].
      intros k Hk. by apply dict_get_set_ne.
    + by destruct Ho as [_ ->].
  - intros Hnd.
    pose proof (served_keys_issued w0 rs1) as [_ Hsub]. fold s1 in Hsub.
    subst s2. destruct (serve settings rs2 s1) as [t2 s2] eqn:Hrun.
    change ((t2, s2).2) with s2 in *.
    destruct (serve_fresh _ _ _ _ _ Hrun Hsub Hnd)
      as (new & added & _ & Hdb & _ & _).
    split; [by exists added|].
    intros id rec Hget. rewrite Hdb. by apply dict_get_app_Some.
Qed.

(** C8 (as amended).  For a file name [n] without a separator, the upload
    is written to [./uploaded_documents/{id}_{n}], that path is the
    pipeline's input, its base name is [{id}_{n}], and the artifact is
    looked up at [./output/{id}_{n}.json].  The two directories are
    literals: they are the same for every configuration and every world. *)
Theorem upload_and_artifact_paths file s :
  let u := (uuid4 (world s)).1 in
  let id := UUID.str u in
  let n := filename file in
  let path := upload_path id n in
  Str.has_sep n = false →
  path = "./uploaded_documents/" +:+ id +:+ "_" +:+ n ∧
  os_path_basename path = id +:+ "_" +:+ n ∧
  output_file_of path = "./output/" +:+ id +:+ "_" +:+ n +:+ ".json" ∧
  input_path (pipeline_configs settings path) = path ∧
  output_dir (pipeline_configs settings path) = "./output" ∧
  ∃ rest,
    calls (upload_document settings file s).2
    = calls s ++ [Call_uuid4 u; Call_open_wb_write path (data file)] ++ rest ∧
    rest `prefix_of`
      [Call_Pipeline_run (pipeline_configs settings path);
       Call_os_path_exists (output_file_of path);
       Call_open_r_read (output_file_of path)].
Proof.
  intros u id n path Hn.
  assert (os_path_basename path = id +:+ "_" +:+ n) as Hbase.
  { subst path id. rewrite upload_path_basename. fold n. by rewrite Hn. }
  split_and!.
  - apply upload_path_eq.
  - exact Hbase.
  - by rewrite output_file_of_eq, Hbase.
  - reflexivity.
  - reflexivity.
  - subst path id u n. unfold_handlers.
    destruct (uuid4 (world s)) as [u w1]. simpl.
    destruct (open_wb_write _ _ w1) as [[[]|e1] w2]; simpl.
    2: { exists []. split; [by rewrite <- !app_assoc | by eexists]. }
    destruct (Pipeline_run _ w2) as [[[]|e2] w3]; simpl.
    2: { eexists [_]. split; [by rewrite <- !app_assoc | by eexists]. }
    destruct (os_path_exists _ w3); simpl.
    2: { eexists [_; _]. split; [by rewrite <- !app_assoc | by eexists]. }
    destruct (open_r_read _ w3) as [[c|e3] w4]; simpl;
      (eexists [_; _; _]; split; [by rewrite <- !app_assoc | by eexists]).
Qed.

(** The two other steps of an upload that can raise: the write of the
    uploaded bytes, and the read of the artifact. *)
Lemma upload_fails_when_write_raises file s u w1 e w2 :
  uuid4 (world s) = (u, w1) →
  open_wb_write (upload_path (UUID.str u) (filename file)) (data file) w1
    = (Raise e, w2) →
  (upload_document settings file s).1 = Raise (HTTPException 500 (str_exn e)).
Proof.
  intros Hu Hw. unfold_handlers. rewrite Hu. simpl. by rewrite Hw.
Qed.

Lemma upload_fails_when_read_raises file s u w1 w2 w3 e w4 :
  let path := upload_path (UUID.str u) (filename file) in
  uuid4 (world s) = (u, w1) →
  open_wb_write path (data file) w1 = (Return (), w2) →
  Pipeline_run (pipeline_configs settings path) w2 = (Return (), w3) →
  os_path_exists (output_file_of path) w3 = true →
  open_r_read (output_file_of path) w3 = (Raise e, w4) →
  (upload_document settings file s).1
  = Raise (HTTPException 500 ("Error processing document: " +:+ str_exn e)).
Proof.
  intros path Hu Hw Hp Hex Hr. subst path. unfold_handlers.
  rewrite Hu. simpl. rewrite Hw. simpl. rewrite Hp. simpl. rewrite Hex. simpl.
  by rewrite Hr.
Qed.

End Claims.

(** * The claims on the concrete world *)

Ltac decide_by_computation :=
  refine (bool_decide_unpack _ _); vm_compute; exact I.
Ltac by_computation := vm_compute; reflexivity.

(** C1 is not what the handler does when the artifact is absent: the upload
    of an empty file, for which the pipeline writes nothing, is answered
    with success and leaves a record in the store. *)
Lemma upload_without_artifact_is_not_a_failure :
  let path := upload_path (UUID.str 0) (filename Sim.empty_txt) in
  let run := upload_document Sim.settings Sim.empty_txt Sim.start in
  ¬ (os_path_exists (output_file_of path) (world run.2) = false →
     (∃ e, run.1 = Raise e) ∧ documents_db run.2 = documents_db Sim.start).
Proof.
  intros path run Hclaim.
  destruct Hclaim as [[e He] _]; [by_computation|].
  vm_compute in He. discriminate He.
Qed.

Lemma upload_fails_when_pipeline_raises_witness :
  let u := 0%N in
  let w1 := (uuid4 (world Sim.start)).2 in
  let path := upload_path (UUID.str u) (filename Sim.broken_pdf) in
  let w2 := (open_wb_write path (data Sim.broken_pdf) w1).2 in
  let e := Exception "partition request failed" in
  uuid4 (world Sim.start) = (u, w1) ∧
  open_wb_write path (data Sim.broken_pdf) w1 = (Return (), w2) ∧
  Pipeline_run (pipeline_configs Sim.settings path) w2 = (Raise e, w2) ∧
  ∃ s',
    upload_document Sim.settings Sim.broken_pdf Sim.start =
      (Raise (HTTPException 500 ("Error processing document: " +:+ str_exn e)),
       s') ∧
    documents_db s' = documents_db Sim.start.
Proof.
  intros u w1 path w2 e.
  assert (uuid4 (world Sim.start) = (u, w1)) as Hu by by_computation.
  assert (open_wb_write path (data Sim.broken_pdf) w1 = (Return (), w2))
    as Hw by by_computation.
  assert (Pipeline_run (pipeline_configs Sim.settings path) w2 = (Raise e, w2))
    as Hp by by_computation.
  split_and!; [exact Hu | exact Hw | exact Hp |].
  exact (upload_fails_when_pipeline_raises
           Sim.settings Sim.broken_pdf Sim.start u w1 w2 e w2 Hu Hw Hp).
Defined.

Lemma ask_unknown_document_is_not_found_witness :
  let s := (upload_document Sim.settings Sim.hello_pdf Sim.start).2 in
  let q := {| document_id := UUID.str 7; query := "Who wrote it?" |} in
  (document_id q ∉ Dict.keys (documents_db s)) ∧
  ask_question Sim.settings q s =
    (Raise (HTTPException 404 "Document not found"), s) ∧
  calls (ask_question Sim.settings q s).2 = calls s ∧
  prompts_sent (calls (ask_question Sim.settings q s).2)
  = prompts_sent (calls s).
Proof.
  intros s q.
  assert (document_id q ∉ Dict.keys (documents_db s)) as Hq
    by decide_by_computation.
  split; [exact Hq|].
  exact (ask_unknown_document_is_not_found Sim.settings q s Hq).
Defined.

Lemma prompt_contains_content_and_question_witness :
  let s := (upload_document Sim.settings Sim.hello_pdf Sim.start).2 in
  let q := {| document_id := UUID.str 0; query := "What does it say?" |} in
  let doc := {| file_name := "hello.pdf";
                file_path := upload_path (UUID.str 0) "hello.pdf";
                content := "[hello]" |} in
  Dict.get (document_id q) (documents_db s) = Some doc ∧
  calls (ask_question Sim.settings q s).2
  = calls s ++ [Call_generate_content (model Sim.settings)
                  (prompt_of "[hello]" "What does it say?")].
Proof.
  intros s q doc.
  assert (Dict.get (document_id q) (documents_db s) = Some doc) as Hdoc
    by by_computation.
  split; [exact Hdoc|].
  destruct (prompt_contains_content_and_question
              Sim.settings "[hello]" "What does it say?")
    as (_ & _ & _ & _ & Hask).
  exact (Hask q s doc Hdoc eq_refl eq_refl).
Defined.

Lemma upload_with_missing_artifact_stores_empty_content_witness :
  let u := 0%N in
  let w1 := (uuid4 (world Sim.start)).2 in
  let path := upload_path (UUID.str u) (filename Sim.empty_txt) in
  let w2 := (open_wb_write path (data Sim.empty_txt) w1).2 in
  (uuid4 (world Sim.start) = (u, w1) ∧
   open_wb_write path (data Sim.empty_txt) w1 = (Return (), w2) ∧
   Pipeline_run (pipeline_configs Sim.settings path) w2 = (Return (), w2) ∧
   os_path_exists (output_file_of path) w2 = false) ∧
  upload_document Sim.settings Sim.empty_txt Sim.start =
    (Return (JObj [("message", JStr "Document uploaded and processed successfully");
                   ("document_id", JStr (UUID.str u))]),
     {| documents_db :=
          Dict.set (UUID.str u)
            {| file_name := filename Sim.empty_txt; file_path := path;
               content := EmptyString |} (documents_db Sim.start);
        world := w2;
        calls := calls Sim.start ++
                 [Call_uuid4 u; Call_open_wb_write path (data Sim.empty_txt);
                  Call_Pipeline_run (pipeline_configs Sim.settings path);
                  Call_os_path_exists (output_file_of path)] |}).
Proof.
  intros u w1 path w2.
  assert (uuid4 (world Sim.start) = (u, w1)) as Hu by by_computation.
  assert (open_wb_write path (data Sim.empty_txt) w1 = (Return (), w2))
    as Hw by by_computation.
  assert (Pipeline_run (pipeline_configs Sim.settings path) w2 = (Return (), w2))
    as Hp by by_computation.
  assert (os_path_exists (output_file_of path) w2 = false)
    as Hex by by_computation.
  split; [split_and!; assumption|].
  exact (upload_with_missing_artifact_stores_empty_content
           Sim.settings Sim.empty_txt Sim.start u w1 w2 w2 Hu Hw Hp Hex).
Defined.

Lemma uploaded_document_is_retrievable_witness :
  let run := upload_document Sim.settings Sim.hello_pdf Sim.start in
  let j := JObj [("message", JStr "Document uploaded and processed successfully");
                 ("document_id", JStr (UUID.str 0))] in
  run = (Return j, run.2) ∧
  ∃ id c,
    j = JObj [("message", JStr "Document uploaded and processed successfully");
              ("document_id", JStr id)] ∧
    Dict.get id (documents_db run.2) =
      Some {| file_name := filename Sim.hello_pdf;
              file_path := upload_path id (filename Sim.hello_pdf);
              content := c |} ∧
    (∀ question,
       let prompt := prompt_of c question in
       let after w' :=
         {| documents_db := documents_db run.2; world := w';
            calls := calls run.2 ++
                     [Call_generate_content (model Sim.settings) prompt] |} in
       ask_question Sim.settings
         {| document_id := id; query := question |} run.2 =
         match generate_content (model Sim.settings) prompt (world run.2) with
         | (Return text, w') =>
             (Return (JObj [("query", JStr question);
                            ("response", JStr text);
                            ("document", JStr (filename Sim.hello_pdf))]),
              after w')
         | (Raise e, w') =>
             (Raise (HTTPException 500
                       ("Error processing query with Gemini: " +:+ str_exn e)),
              after w')
         end) ∧
    (∃ listing,
       (list_documents run.2).1 = Return (JArr listing) ∧
       listing_entry (id, filename Sim.hello_pdf) ∈ listing).
Proof.
  intros run j.
  assert (run = (Return j, run.2)) as Hrun by by_computation.
  split; [exact Hrun|].
  exact (uploaded_document_is_retrievable
           Sim.settings Sim.hello_pdf Sim.start j run.2 Hrun).
Defined.

Lemma failed_upload_leaves_no_record_witness :
  let before := [POST_upload Sim.hello_pdf] in
  let after := [POST_upload Sim.empty_txt; GET_documents] in
  let s1 := (serve Sim.settings before (initial_state Sim.world0)).2 in
  let id := UUID.str (uuid4 (world s1)).1 in
  let s2 := (upload_document Sim.settings Sim.broken_pdf s1).2 in
  let s3 := (serve Sim.settings after s2).2 in
  ((∃ e, (upload_document Sim.settings Sim.broken_pdf s1).1 = Raise e) ∧
   NoDup (issued_ids (calls s3))) ∧
  documents_db s2 = documents_db s1 ∧
  Dict.get id (documents_db s3) = None ∧
  (∀ question,
     ask_question Sim.settings {| document_id := id; query := question |} s3
     = (Raise (HTTPException 404 "Document not found"), s3)) ∧
  (∃ listing,
     (list_documents s3).1 = Return (JArr listing) ∧
     ∀ name, listing_entry (id, name) ∉ listing).
Proof.
  intros before after s1 id s2 s3.
  assert (∃ e, (upload_document Sim.settings Sim.broken_pdf s1).1 = Raise e)
    as Hfail by (eexists; by_computation).
  assert (NoDup (issued_ids (calls s3))) as Hnd by decide_by_computation.
  split; [by split|].
  destruct (failed_upload_leaves_no_record
              Sim.settings Sim.world0 before after Sim.broken_pdf Hfail)
    as [Hdb Hlater].
  split; [exact Hdb|]. exact (Hlater Hnd).
Defined.



Lemma listing_is_the_store_in_insertion_order_witness :
  let t := (serve Sim.settings Sim.session (initial_state Sim.world0)).1 in
  let s := (serve Sim.settings Sim.session (initial_state Sim.world0)).2 in
  NoDup (issued_ids (calls s)) ∧
  list_documents s = (Return (JArr (map listing_entry (uploaded t))), s) ∧
  uploaded t = [(UUID.str 0, "hello.pdf"); (UUID.str 3, "empty.txt")].
Proof.
  intros t s.
  assert (NoDup (issued_ids (calls s))) as Hnd by decide_by_computation.
  split; [exact Hnd|]. split; [|by_computation].
  destruct (listing_is_the_store_in_insertion_order
              Sim.settings Sim.world0 Sim.session) as (_ & _ & Horder).
  exact (Horder Hnd).
Defined.

Lemma store_changes_only_by_successful_upload_witness :
  let rs1 := [POST_upload Sim.hello_pdf] in
  let rs2 := [POST_upload Sim.broken_pdf; POST_upload Sim.empty_txt;
              POST_ask {| document_id := UUID.str 0; query := "Why?" |}] in
  let s1 := (serve Sim.settings rs1 (initial_state Sim.world0)).2 in
  let s2 := (serve Sim.settings rs2 s1).2 in
  NoDup (issued_ids (calls s2)) ∧
  (∃ added, documents_db s2 = documents_db s1 ++ added) ∧
  ∀ id rec, Dict.get id (documents_db s1) = Some rec →
            Dict.get id (documents_db s2) = Some rec.
Proof.
  intros rs1 rs2 s1 s2.
  assert (NoDup (issued_ids (calls s2))) as Hnd by decide_by_computation.
  split; [exact Hnd|].
  destruct (store_changes_only_by_successful_upload
              Sim.settings Sim.world0 rs1 rs2) as (_ & _ & _ & Hgrow).
  exact (Hgrow Hnd).
Defined.

Lemma upload_and_artifact_paths_witness :
  let s := Sim.start in
  let id := UUID.str (uuid4 (world s)).1 in
  let n := filename Sim.hello_pdf in
  let path := upload_path id n in
  Str.has_sep n = false ∧
  path = "./uploaded_documents/" +:+ id +:+ "_" +:+ n ∧
  os_path_basename path = id +:+ "_" +:+ n ∧
  output_file_of path = "./output/" +:+ id +:+ "_" +:+ n +:+ ".json" ∧
  input_path (pipeline_configs Sim.settings path) = path ∧
  output_dir (pipeline_configs Sim.settings path) = "./output" ∧
  ∃ rest,
    calls (upload_document Sim.settings Sim.hello_pdf s).2
    = calls s ++ [Call_uuid4 (uuid4 (world s)).1;
                  Call_open_wb_write path (data Sim.hello_pdf)] ++ rest ∧
    rest `prefix_of`
      [Call_Pipeline_run (pipeline_configs Sim.settings path);
       Call_os_path_exists (output_file_of path);
       Call_open_r_read (output_file_of path)].
Proof.
  intros s id n path.
  assert (Str.has_sep n = false) as Hn by by_computation.
  split; [exact Hn|].
  exact (upload_and_artifact_paths Sim.settings Sim.hello_pdf s Hn).
Defined.

(** C8 is not what the handler does for a file name with a separator in
    it: the artifact is looked up under the last component of the name,
    without the identifier. *)
Lemma artifact_name_drops_directories_of_file_name :
  let id := UUID.str 0 in
  let n := "a/b.pdf" in
  os_path_basename (upload_path id n) ≠ id +:+ "_" +:+ n ∧
  output_file_of (upload_path id n) = "./output/b.pdf.json" ∧
  output_file_of (upload_path id n)
  ≠ OUTPUT_DIRECTORY +:+ "/" +:+ id +:+ "_" +:+ n +:+ ".json".
Proof.
  intros id n. split_and!.
  - intros Heq. vm_compute in Heq. discriminate Heq.
  - by_computation.
  - intros Heq. vm_compute in Heq. discriminate Heq.
Qed.

(** * Further properties of the code *)

(** ** The allowed origins *)

Lemma origins_split_nonempty (sep : ascii) (s : string) :
  Origins.split sep s ≠ [].
Proof.
  destruct s as [|c r]; simpl; [done|].
  case_bool_decide; [done|]. by destruct (Origins.split sep r).
Qed.

Lemma origins_join_split (sep : ascii) (s : string) :
  Origins.join sep (Origins.split sep s) = s.
Proof.
  induction s as [|c r IH]; simpl; [done|].
  pose proof (origins_split_nonempty sep r) as Hne.
  case_bool_decide as Hc.
  - subst c. destruct (Origins.split sep r) as [|piece pieces]; [done|].
    change (Origins.join sep (EmptyString :: piece :: pieces))
      with (String sep (Origins.join sep (piece :: pieces))).
    by rewrite IH.
  - destruct (Origins.split sep r) as [|piece pieces]; [done|].
    destruct pieces as [|piece' pieces]; simpl in *; by rewrite IH.
Qed.

Lemma origins_split_pieces (sep : ascii) (s : string) :
  Forall (λ piece, Origins.has_char sep piece = false) (Origins.split sep s).
Proof.
  induction s as [|c r IH]; simpl; [by repeat constructor|].
  case_bool_decide as Hc; [by constructor|].
  destruct (Origins.split sep r) as [|piece pieces]; simpl.
  - repeat constructor. simpl. by rewrite bool_decide_eq_false_2.
  - apply Forall_cons in IH as [Hpiece Hpieces]. constructor; [|done].
    simpl. by rewrite bool_decide_eq_false_2.
Qed.

Lemma origins_split_single (sep : ascii) (s : string) :
  if Origins.has_char sep s
  then (1 < length (Origins.split sep s))%nat
  else Origins.split sep s = [s].
Proof.
  induction s as [|c r IH]; simpl; [done|].
  pose proof (origins_split_nonempty sep r) as Hne.
  case_bool_decide as Hc; simpl.
  - destruct (Origins.split sep r); [done | simpl; lia].
  - destruct (Origins.has_char sep r).
    + destruct (Origins.split sep r); simpl in *; [done | lia].
    + by rewrite IH.
Qed.

(** X1.  Whatever the environment holds, [ALLOWED_ORIGINS] has at least one
    entry, no entry contains a comma, and the entries joined by commas are
    the configured text as it was written (nothing is trimmed or dropped):
    a text without a comma is the single entry, the unset variable gives
    the one default origin. *)
Theorem allowed_origins_are_the_text_between_commas (value : option string) :
  let text := default "http://localhost:3000" value in
  Origins.ALLOWED_ORIGINS value ≠ [] ∧
  Forall (λ origin, Origins.has_char "," origin = false)
    (Origins.ALLOWED_ORIGINS value) ∧
  Origins.join "," (Origins.ALLOWED_ORIGINS value) = text ∧
  (if Origins.has_char "," text
   then (1 < length (Origins.ALLOWED_ORIGINS value))%nat
   else Origins.ALLOWED_ORIGINS value = [text]) ∧
  Origins.ALLOWED_ORIGINS None = ["http://localhost:3000"].
Proof.
  intros text. unfold Origins.ALLOWED_ORIGINS. fold text. split_and!.
  - apply origins_split_nonempty.
  - apply origins_split_pieces.
  - apply origins_join_split.
  - apply origins_split_single.
  - reflexivity.
Qed.

(** ** Identifiers and paths *)

Lemma hex_fixed_length (k : nat) (n : N) :
  String.length (UUID.hex_fixed k n) = k.
Proof.
  revert n. induction k as [|k IH]; intros n; simpl; [done|].
  rewrite string_length_app, IH. simpl. lia.
Qed.

Lemma substring_length (s : string) (n m : nat) :
  (n + m ≤ String.length s)%nat →
  String.length (String.substring n m s) = m.
Proof.
  revert n m. induction s as [|x s IH]; intros n m Hlen; simpl in *.
  - destruct n, m; simpl; lia.
  - destruct n as [|n]; [destruct m as [|m]|]; simpl; [done | |].
    + rewrite (IH 0%nat m); lia.
    + apply IH. lia.
Qed.

(** A document identifier is 36 characters long. *)
Lemma uuid_str_length (u : N) : String.length (UUID.str u) = 36%nat.
Proof.
  with_strategy transparent [UUID.str] unfold UUID.str.
  cbv zeta. rewrite !string_length_app.
  rewrite !substring_length by (rewrite hex_fixed_length; lia).
  reflexivity.
Qed.

Lemma string_app_inj_length (a a' b b' : string) :
  String.length a = String.length a' →
  a +:+ b = a' +:+ b' → a = a' ∧ b = b'.
Proof.
  revert a'. induction a as [|x a IH]; intros [|x' a'] Hlen Heq;
    simpl in *; try done.
  injection Heq as -> Heq. destruct (IH a') as [-> ->]; [lia | done | done].
Qed.

(** X2.  Two uploads are written to the same path only if they have the
    same identifier and the same file name: with different identifiers the
    paths differ, whatever the names, and so do the artifacts looked up for
    two names without a separator. *)
Theorem upload_paths_are_namespaced_by_identifier (u1 u2 : N) (n1 n2 : string) :
  UUID.str u1 ≠ UUID.str u2 →
  upload_path (UUID.str u1) n1 ≠ upload_path (UUID.str u2) n2 ∧
  (Str.has_sep n1 = false → Str.has_sep n2 = false →
   output_file_of (upload_path (UUID.str u1) n1)
   ≠ output_file_of (upload_path (UUID.str u2) n2)).
Proof.
  intros Hne.
  assert (∀ x y, UUID.str u1 +:+ "_" +:+ x ≠ UUID.str u2 +:+ "_" +:+ y)
    as Hnames.
  { intros x y Heq. apply Hne.
    apply string_app_inj_length in Heq as [? _]; [done|].
    by rewrite !uuid_str_length. }
  split.
  - rewrite !upload_path_eq. intros Heq.
    apply (inj (String.app _)) in Heq.
    apply (inj (String.app _)) in Heq. by apply Hnames in Heq.
  - intros Hn1 Hn2. rewrite !output_file_of_eq, !upload_path_basename, Hn1, Hn2.
    intros Heq.
    apply (inj (String.app _)) in Heq.
    apply (inj (String.app _)) in Heq.
    rewrite !string_app_assoc in Heq.
    apply string_app_inj_length in Heq as [? _]; [done|].
    by rewrite !uuid_str_length.
Qed.

(** X3.  The artifact is always looked up directly inside [./output]: the
    name that follows the directory is the base name of the upload's path
    and never contains a separator, whatever the uploaded file was called. *)
Theorem artifact_is_looked_up_inside_output_directory (path : string) :
  output_file_of path = "./output/" +:+ os_path_basename path +:+ ".json" ∧
  Str.has_sep (os_path_basename path +:+ ".json") = false.
Proof.
  split; [apply output_file_of_eq|].
  by rewrite has_sep_app, os_path_basename_has_no_sep.
Qed.

Section MoreHandlerFacts.
Context {W : Type} `{!Collaborators W} (settings : Settings).
Implicit Types (s : State W) (file : UploadFile) (q : DocumentQuery).

(** X5.  Every upload, whatever its outcome and whatever the file is
    called, draws exactly one identifier and then writes the uploaded bytes
    to the upload path, before anything else; what follows is at most the
    pipeline run, the existence test and the read of the artifact, in this
    order.  An upload never calls the generative model. *)
Theorem upload_always_writes_the_file_first file s :
  let u := (uuid4 (world s)).1 in
  let path := upload_path (UUID.str u) (filename file) in
  let s' := (upload_document settings file s).2 in
  (∃ rest,
     calls s' = calls s ++
                [Call_uuid4 u; Call_open_wb_write path (data file)] ++ rest ∧
     rest `prefix_of`
       [Call_Pipeline_run (pipeline_configs settings path);
        Call_os_path_exists (output_file_of path);
        Call_open_r_read (output_file_of path)]) ∧
  issued_ids (calls s') = issued_ids (calls s) ++ [UUID.str u] ∧
  prompts_sent (calls s') = prompts_sent (calls s).
Proof.
  intros u path s'.
  assert (∃ rest,
     calls s' = calls s ++
                [Call_uuid4 u; Call_open_wb_write path (data file)] ++ rest ∧
     rest `prefix_of`
       [Call_Pipeline_run (pipeline_configs settings path);
        Call_os_path_exists (output_file_of path);
        Call_open_r_read (output_file_of path)]) as (rest & Hcalls & Hrest).
  { subst s' path u. unfold_handlers.
    destruct (uuid4 (world s)) as [u w1]. simpl.
    destruct (open_wb_write _ _ w1) as [[[]|e1] w2]; simpl.
    2: { exists []. split; [by rewrite <- !app_assoc | by eexists]. }
    destruct (Pipeline_run _ w2) as [[[]|e2] w3]; simpl.
    2: { eexists [_]. split; [by rewrite <- !app_assoc | by eexists]. }
    destruct (os_path_exists _ w3); simpl.
    2: { eexists [_; _]. split; [by rewrite <- !app_assoc | by eexists]. }
    destruct (open_r_read _ w3) as [[c|e3] w4]; simpl;
      (eexists [_; _; _]; split; [by rewrite <- !app_assoc | by eexists]). }
  split; [by exists rest|].
  rewrite Hcalls, !issued_ids_app, !prompts_sent_app.
  destruct Hrest as [more Hmore].
  assert (issued_ids rest = [] ∧ prompts_sent rest = []) as [-> ->].
  { destruct rest as [|c1 [|c2 [|c3 [|c4 rest]]]]; simplify_eq/=; done. }
  simpl. by rewrite !app_nil_r.
Qed.

(** X6.  An upload succeeds exactly when the write of the bytes returns,
    the pipeline returns, and the artifact is either absent or read without
    error; in every other case the answer is an HTTP 500. *)
Theorem upload_succeeds_exactly_when_no_step_raises file s :
  let u := (uuid4 (world s)).1 in
  let w1 := (uuid4 (world s)).2 in
  let path := upload_path (UUID.str u) (filename file) in
  ((∃ j, (upload_document settings file s).1 = Return j) ↔
   ∃ w2 w3,
     open_wb_write path (data file) w1 = (Return (), w2) ∧
     Pipeline_run (pipeline_configs settings path) w2 = (Return (), w3) ∧
     (os_path_exists (output_file_of path) w3 = false ∨
      ∃ c w4, os_path_exists (output_file_of path) w3 = true ∧
              open_r_read (output_file_of path) w3 = (Return c, w4))) ∧
  (∀ e, (upload_document settings file s).1 = Raise e →
        ∃ detail, e = HTTPException 500 detail).
Proof.
  intros u w1 path. split.
  - subst u w1 path. unfold_handlers.
    destruct (uuid4 (world s)) as [u w1]. simpl.
    destruct (open_wb_write _ _ w1) as [[[]|e1] w2] eqn:Hw; simpl.
    2: { split; [by intros [j Hj]|]. by intros (w2' & w3 & [=] & _). }
    destruct (Pipeline_run _ w2) as [[[]|e2] w3] eqn:Hp; simpl.
    2: { split; [by intros [j Hj]|].
         intros (w2' & w3' & [= <-] & Hp' & _). by rewrite Hp in Hp'. }
    destruct (os_path_exists _ w3) eqn:Hex; simpl.
    2: { split; [|by eexists]. intros _. exists w2, w3. by auto. }
    destruct (open_r_read _ w3) as [[c|e3] w4] eqn:Hr; simpl.
    + split; [|by eexists]. intros _. exists w2, w3.
      split_and!; [done..|]. right. by exists c, w4.
    + split; [by intros [j Hj]|].
      intros (w2' & w3' & [= <-] & Hp' & Hcase).
      rewrite Hp in Hp'. injection Hp' as <-.
      destruct Hcase as [Hno|(c & w4' & _ & Hr')]; [congruence|].
      by rewrite Hr in Hr'.
  - intros e He.
    destruct (upload_document settings file s) as [o s'] eqn:Hrun.
    apply upload_document_spec in Hrun as [_ Ho]. simpl in He. subst o.
    by destruct Ho as [Hdetail _].
Qed.

(** X7.  When the artifact is there and is read without error, the upload
    succeeds and the record stored under the new identifier holds the
    artifact's text as it was read, with the original file name and the
    upload path. *)
Theorem upload_stores_the_artifact_text file s u w1 w2 w3 c w4 :
  let file_id := UUID.str u in
  let path := upload_path file_id (filename file) in
  uuid4 (world s) = (u, w1) →
  open_wb_write path (data file) w1 = (Return (), w2) →
  Pipeline_run (pipeline_configs settings path) w2 = (Return (), w3) →
  os_path_exists (output_file_of path) w3 = true →
  open_r_read (output_file_of path) w3 = (Return c, w4) →
  upload_document settings file s =
    (Return (JObj [("message", JStr "Document uploaded and processed successfully");
                   ("document_id", JStr file_id)]),
     {| documents_db :=
          Dict.set file_id
            {| file_name := filename file; file_path := path; content := c |}
            (documents_db s);
        world := w4;
        calls := calls s ++
                 [Call_uuid4 u; Call_open_wb_write path (data file);
                  Call_Pipeline_run (pipeline_configs settings path);
                  Call_os_path_exists (output_file_of path);
                  Call_open_r_read (output_file_of path)] |}).
Proof.
  intros file_id path Hu Hw Hp Hex Hr. subst file_id path. unfold_handlers.
  rewrite Hu. simpl. rewrite Hw. simpl. rewrite Hp. simpl. rewrite Hex. simpl.
  rewrite Hr. simpl. rewrite <- !app_assoc. reflexivity.
Qed.

(** X8.  When the write of the uploaded bytes raises, the answer is an
    HTTP 500 whose detail is the text of that error, without a prefix; the
    pipeline is not run and the store is as it was. *)
Theorem upload_stops_at_a_failed_write file s u w1 e w2 :
  let path := upload_path (UUID.str u) (filename file) in
  uuid4 (world s) = (u, w1) →
  open_wb_write path (data file) w1 = (Raise e, w2) →
  upload_document settings file s =
    (Raise (HTTPException 500 (str_exn e)),
     {| documents_db := documents_db s;
        world := w2;
        calls := calls s ++
                 [Call_uuid4 u; Call_open_wb_write path (data file)] |}).
Proof.
  intros path Hu Hw. subst path. unfold_handlers.
  rewrite Hu. simpl. rewrite Hw. simpl. rewrite <- !app_assoc. reflexivity.
Qed.

(** X9.  When the artifact is there but reading it raises, the answer is an
    HTTP 500 whose detail is ["Error processing document: "] followed by
    the text of that error, and the store is as it was. *)
Theorem upload_fails_on_an_unreadable_artifact file s u w1 w2 w3 e w4 :
  let path := upload_path (UUID.str u) (filename file) in
  uuid4 (world s) = (u, w1) →
  open_wb_write path (data file) w1 = (Return (), w2) →
  Pipeline_run (pipeline_configs settings path) w2 = (Return (), w3) →
  os_path_exists (output_file_of path) w3 = true →
  open_r_read (output_file_of path) w3 = (Raise e, w4) →
  upload_document settings file s =
    (Raise (HTTPException 500 ("Error processing document: " +:+ str_exn e)),
     {| documents_db := documents_db s;
        world := w4;
        calls := calls s ++
                 [Call_uuid4 u; Call_open_wb_write path (data file);
                  Call_Pipeline_run (pipeline_configs settings path);
                  Call_os_path_exists (output_file_of path);
                  Call_open_r_read (output_file_of path)] |}).
Proof.
  intros path Hu Hw Hp Hex Hr. subst path. unfold_handlers.
  rewrite Hu. simpl. rewrite Hw. simpl. rewrite Hp. simpl. rewrite Hex. simpl.
  rewrite Hr. simpl. rewrite <- !app_assoc. reflexivity.
Qed.

(** X10.  A question about a stored document makes one call, to the
    generative model, with the prompt built from the stored content.  If
    the model returns a text, the answer carries the question, that text
    unchanged, and the stored file name; if the model raises, the answer is
    an HTTP 500 whose detail is ["Error processing query with Gemini: "]
    followed by the text of the error.  Either way the store is as it was. *)
Theorem ask_relays_the_model_answer q s doc :
  let prompt := prompt_of (content doc) (query q) in
  let after w' :=
    {| documents_db := documents_db s; world := w';
       calls := calls s ++ [Call_generate_content (model settings) prompt] |} in
  Dict.get (document_id q) (documents_db s) = Some doc →
  ask_question settings q s =
    match generate_content (model settings) prompt (world s) with
    | (Return text, w') =>
        (Return (JObj [("query", JStr (query q));
                       ("response", JStr text);
                       ("document", JStr (file_name doc))]),
         after w')
    | (Raise e, w') =>
        (Raise (HTTPException 500
                  ("Error processing query with Gemini: " +:+ str_exn e)),
         after w')
    end.
Proof.
  intros prompt after Hdoc. subst prompt after. unfold_handlers. simpl.
  unfold Dict.contains. rewrite Hdoc. simpl. rewrite Hdoc. simpl.
  destruct (generate_content (model settings) _ (world s)) as [[text|e] w'];
    simpl; rewrite ?Hdoc; reflexivity.
Qed.

(** X11.  [/ask] answers 404 exactly for the identifiers that are not keys
    of the store: for a key of the store the answer is never a 404,
    whatever the model does. *)
Theorem ask_is_not_found_exactly_for_missing_keys q s :
  (∃ detail, (ask_question settings q s).1 = Raise (HTTPException 404 detail))
  ↔ document_id q ∉ Dict.keys (documents_db s).
Proof.
  split.
  - intros [detail H404] Hin.
    destruct (Dict.get (document_id q) (documents_db s)) as [doc|] eqn:Hdoc.
    2: { by apply dict_get_None in Hdoc. }
    revert H404. unfold_handlers. simpl.
    unfold Dict.contains. rewrite Hdoc. simpl. rewrite Hdoc. simpl.
    destruct (generate_content (model settings) _ (world s)) as [[text|e] w'];
      simpl; rewrite ?Hdoc; done.
  - intros Hq. rewrite ask_question_missing_key by done. by eexists.
Qed.

(** Requests other than uploads leave the store alone. *)
Lemma serve_without_uploads (rs : list Request) s :
  forallb (λ r, negb (is_upload r)) rs = true →
  documents_db (serve settings rs s).2 = documents_db s ∧
  Forall (λ '(r, o), r = GET_documents → o = (list_documents s).1)
    (serve settings rs s).1.
Proof.
  revert s. induction rs as [|r rs IH]; intros s Hrs.
  - split; [done | constructor].
  - cbn [forallb] in Hrs. apply andb_true_iff in Hrs as [Hr Hrs].
    cbn [serve].
    destruct (handle settings r s) as [o s1] eqn:Hstep.
    specialize (IH s1 Hrs).
    destruct (serve settings rs s1) as [t s2] eqn:Hrest.
    cbn [fst snd] in *. destruct IH as [Hdb Hall].
    assert (documents_db s1 = documents_db s ∧
            (r = GET_documents → o = (list_documents s).1)) as [Hdb1 Ho].
    { destruct r as [file|q|]; cbn [handle is_upload negb] in *; [done| |].
      - apply ask_question_spec in Hstep as [-> _]. by split.
      - rewrite list_documents_spec in Hstep. simplify_eq.
        by rewrite list_documents_spec. }
    split; [congruence|].
    constructor; [done|].
    eapply Forall_impl; [exact Hall|]. intros [r' o'] Hr' ->.
    rewrite (Hr' eq_refl), !list_documents_spec. cbn [fst]. by rewrite Hdb1.
Qed.

(** X12.  However many questions and listings are served, as long as no
    upload is among them, the store stays as it was and every listing
    among them gives the same answer as a listing made before them. *)
Theorem listings_agree_between_uploads (rs : list Request) s :
  forallb (λ r, negb (is_upload r)) rs = true →
  documents_db (serve settings rs s).2 = documents_db s ∧
  (list_documents (serve settings rs s).2).1 = (list_documents s).1 ∧
  Forall (λ '(r, o), r = GET_documents → o = (list_documents s).1)
    (serve settings rs s).1.
Proof.
  intros Hrs. destruct (serve_without_uploads rs s Hrs) as [Hdb Hall].
  split_and!; [done | | done].
  rewrite !list_documents_spec. cbn [fst]. by rewrite Hdb.
Qed.

(** X13.  The handler makes no collision check of its own: if [uuid4]
    returns an identifier that is already a key of the store and the upload
    succeeds, the record under that key is replaced by the new upload's
    record; the keys, their order and every other record stay as they
    were. *)
Theorem repeated_identifier_replaces_the_record file s j s' :
  let id := UUID.str (uuid4 (world s)).1 in
  upload_document settings file s = (Return j, s') →
  id ∈ Dict.keys (documents_db s) →
  Dict.keys (documents_db s') = Dict.keys (documents_db s) ∧
  (∃ c, Dict.get id (documents_db s')
        = Some {| file_name := filename file;
                  file_path := upload_path id (filename file);
                  content := c |}) ∧
  (∀ k, k ≠ id → Dict.get k (documents_db s') = Dict.get k (documents_db s)).
Proof.
  intros id Hrun Hin.
  apply upload_document_spec in Hrun as [_ (_ & c & Hdb)]. fold id in Hdb.
  rewrite Hdb. split_and!.
  - rewrite dict_keys_set. by rewrite decide_True.
  - exists c. apply dict_get_set_eq.
  - intros k Hk. by apply dict_get_set_ne.
Qed.

(** X14.  A question asked right after a successful upload is put to the
    model with the artifact's text in the prompt: what the pipeline wrote
    is what the model is asked about. *)
Theorem question_after_upload_uses_the_artifact
    file s u w1 w2 w3 c w4 (question : string) :
  let file_id := UUID.str u in
  let path := upload_path file_id (filename file) in
  let s' := (upload_document settings file s).2 in
  uuid4 (world s) = (u, w1) →
  open_wb_write path (data file) w1 = (Return (), w2) →
  Pipeline_run (pipeline_configs settings path) w2 = (Return (), w3) →
  os_path_exists (output_file_of path) w3 = true →
  open_r_read (output_file_of path) w3 = (Return c, w4) →
  calls (ask_question settings
           {| document_id := file_id; query := question |} s').2
  = calls s' ++ [Call_generate_content (model settings) (prompt_of c question)].
Proof.
  intros file_id path s' Hu Hw Hp Hex Hr.
  assert (Dict.get file_id (documents_db s')
          = Some {| file_name := filename file; file_path := path;
                    content := c |}) as Hdoc.
  { subst s' file_id path. unfold_handlers.
    rewrite Hu. simpl. rewrite Hw. simpl. rewrite Hp. simpl. rewrite Hex. simpl.
    rewrite Hr. simpl. apply dict_get_set_eq. }
  unfold_handlers. simpl.
  unfold Dict.contains. rewrite Hdoc. simpl. rewrite Hdoc. simpl.
  destruct (generate_content (model settings) _ (world s')) as [[text|e] w'];
    simpl; rewrite ?Hdoc; reflexivity.
Qed.

End MoreHandlerFacts.

(** ** [POST /signup] *)

Lemma str_of_user_creation_failed :
  str_exn (HTTPException 400 "User creation failed.")
  = "400: User creation failed.".
Proof. vm_compute. reflexivity. Qed.

Section SignUpFacts.
Context {W : Type} `{!UserManagement W}.
Implicit Types (s : State W) (user : User).

(** X15.  A user creation that gives no result, or a user that is not
    confirmed, is not answered with the 400 the handler raises for it: that
    exception is caught by the handler's own [except Exception] and comes
    out as an HTTP 500 whose detail is the text of the 400. *)
Theorem sign_up_rejection_is_answered_500 user s response w' :
  create_user (email user) (password user) (world s) = (Return response, w') →
  (response = None ∨
   ∃ created, response = Some created ∧ response_confirmed_at created = None) →
  sign_up user s =
    (Raise (HTTPException 500 "400: User creation failed."),
     {| documents_db := documents_db s; world := w'; calls := calls s |}).
Proof.
  intros Hcreate Hrejected. unfold sign_up, on_world. unfold_handlers.
  rewrite Hcreate. simpl.
  destruct Hrejected as [->|(created & -> & Hunconfirmed)]; simpl.
  - by rewrite str_of_user_creation_failed.
  - rewrite Hunconfirmed. simpl. by rewrite str_of_user_creation_failed.
Qed.

(** X16.  [/signup] succeeds exactly when the user management returns a
    user with a confirmation time, and then answers with that user's id,
    email and creation time; every failure is an HTTP 500; and neither the
    document store nor the log of the document workflow is touched. *)
Theorem sign_up_succeeds_exactly_for_confirmed_users user s :
  documents_db (sign_up user s).2 = documents_db s ∧
  calls (sign_up user s).2 = calls s ∧
  (∀ e, (sign_up user s).1 = Raise e → ∃ detail, e = HTTPException 500 detail) ∧
  (∀ j, (sign_up user s).1 = Return j ↔
        ∃ created confirmed w',
          create_user (email user) (password user) (world s)
            = (Return (Some created), w') ∧
          response_confirmed_at created = Some confirmed ∧
          j = JObj [("message", JStr "User created successfully");
                    ("data",
                     JObj [("id", JStr (response_id created));
                           ("email", JStr (response_email created));
                           ("created_at",
                            JStr (response_created_at_isoformat created))])]).
Proof.
  unfold sign_up, on_world. unfold_handlers.
  destruct (create_user (email user) (password user) (world s))
    as [[[created|]|e] w'] eqn:Hcreate; simpl.
  - destruct (response_confirmed_at created) as [confirmed|] eqn:Hconf; simpl.
    + split_and!; [done..|]. intros j. split.
      * intros [= <-]. by exists created, confirmed, w'.
      * intros (created' & confirmed' & w'' & [= <- <-] & _ & ->). done.
    + split_and!; [done | done | intros e' [= <-]; by eexists |].
      intros j. split; [done|].
      intros (created' & confirmed' & w'' & [= <- <-] & Hconf' & _).
      congruence.
  - split_and!; [done | done | intros e' [= <-]; by eexists |].
    intros j. split; [done|]. by intros (? & ? & ? & [=] & _).
  - split_and!; [done | done | intros e' [= <-]; by eexists |].
    intros j. split; [done|]. by intros (? & ? & ? & [=] & _).
Qed.

End SignUpFacts.

(** * The further properties on the concrete world *)

Lemma upload_paths_are_namespaced_by_identifier_witness :
  UUID.str 0 ≠ UUID.str 1 ∧
  upload_path (UUID.str 0) "same.pdf" ≠ upload_path (UUID.str 1) "same.pdf" ∧
  output_file_of (upload_path (UUID.str 0) "same.pdf")
  ≠ output_file_of (upload_path (UUID.str 1) "same.pdf").
Proof.
  assert (UUID.str 0 ≠ UUID.str 1) as Hne by decide_by_computation.
  split; [exact Hne|].
  destruct (upload_paths_are_namespaced_by_identifier
              0 1 "same.pdf" "same.pdf" Hne) as [Hpaths Hartifacts].
  split; [exact Hpaths|]. exact (Hartifacts eq_refl eq_refl).
Defined.

Lemma upload_succeeds_exactly_when_no_step_raises_witness :
  let s := Sim.start in
  let file := Sim.hello_pdf in
  let u := (uuid4 (world s)).1 in
  let w1 := (uuid4 (world s)).2 in
  let path := upload_path (UUID.str u) (filename file) in
  let w2 := (open_wb_write path (data file) w1).2 in
  let w3 := (Pipeline_run (pipeline_configs Sim.settings path) w2).2 in
  (open_wb_write path (data file) w1 = (Return (), w2) ∧
   Pipeline_run (pipeline_configs Sim.settings path) w2 = (Return (), w3) ∧
   os_path_exists (output_file_of path) w3 = true ∧
   open_r_read (output_file_of path) w3 = (Return "[hello]", w3)) ∧
  ∃ j, (upload_document Sim.settings file s).1 = Return j.
Proof.
  intros s file u w1 path w2 w3.
  assert (open_wb_write path (data file) w1 = (Return (), w2))
    as Hw by by_computation.
  assert (Pipeline_run (pipeline_configs Sim.settings path) w2 = (Return (), w3))
    as Hp by by_computation.
  assert (os_path_exists (output_file_of path) w3 = true)
    as Hex by by_computation.
  assert (open_r_read (output_file_of path) w3 = (Return "[hello]", w3))
    as Hr by by_computation.
  split; [split_and!; assumption|].
  destruct (upload_succeeds_exactly_when_no_step_raises Sim.settings file s)
    as [Hiff _].
  apply (proj2 Hiff). exists w2, w3.
  split; [exact Hw|]. split; [exact Hp|].
  right. exists "[hello]", w3. split; [exact Hex | exact Hr].
Defined.

Lemma upload_stores_the_artifact_text_witness :
  let s := Sim.start in
  let file := Sim.hello_pdf in
  let u := 0%N in
  let w1 := (uuid4 (world s)).2 in
  let path := upload_path (UUID.str u) (filename file) in
  let w2 := (open_wb_write path (data file) w1).2 in
  let w3 := (Pipeline_run (pipeline_configs Sim.settings path) w2).2 in
  (uuid4 (world s) = (u, w1) ∧
   open_wb_write path (data file) w1 = (Return (), w2) ∧
   Pipeline_run (pipeline_configs Sim.settings path) w2 = (Return (), w3) ∧
   os_path_exists (output_file_of path) w3 = true ∧
   open_r_read (output_file_of path) w3 = (Return "[hello]", w3)) ∧
  Dict.get (UUID.str u) (documents_db (upload_document Sim.settings file s).2)
  = Some {| file_name := "hello.pdf"; file_path := path; content := "[hello]" |}.
Proof.
  intros s file u w1 path w2 w3.
  assert (uuid4 (world s) = (u, w1)) as Hu by by_computation.
  assert (open_wb_write path (data file) w1 = (Return (), w2))
    as Hw by by_computation.
  assert (Pipeline_run (pipeline_configs Sim.settings path) w2 = (Return (), w3))
    as Hp by by_computation.
  assert (os_path_exists (output_file_of path) w3 = true)
    as Hex by by_computation.
  assert (open_r_read (output_file_of path) w3 = (Return "[hello]", w3))
    as Hr by by_computation.
  split; [split_and!; assumption|].
  rewrite (upload_stores_the_artifact_text
             Sim.settings file s u w1 w2 w3 "[hello]" w3 Hu Hw Hp Hex Hr).
  apply dict_get_set_eq.
Defined.

Lemma upload_stops_at_a_failed_write_witness :
  let s := Sim.start in
  let file := Sim.nested_pdf in
  let u := 0%N in
  let w1 := (uuid4 (world s)).2 in
  let path := upload_path (UUID.str u) (filename file) in
  let e := Sim.no_such_file path in
  (uuid4 (world s) = (u, w1) ∧
   open_wb_write path (data file) w1 = (Raise e, w1)) ∧
  upload_document Sim.settings file s =
    (Raise (HTTPException 500 (str_exn e)),
     {| documents_db := documents_db s;
        world := w1;
        calls := calls s ++
                 [Call_uuid4 u; Call_open_wb_write path (data file)] |}).
Proof.
  intros s file u w1 path e.
  assert (uuid4 (world s) = (u, w1)) as Hu by by_computation.
  assert (open_wb_write path (data file) w1 = (Raise e, w1))
    as Hw by by_computation.
  split; [by split|].
  exact (upload_stops_at_a_failed_write Sim.settings file s u w1 e w1 Hu Hw).
Defined.

Lemma upload_fails_on_an_unreadable_artifact_witness :
  let s := Sim.start in
  let file := Sim.hello_pdf in
  let u := 0%N in
  let w1 := (Sim.sim_uuid4 (world s)).2 in
  let path := upload_path (UUID.str u) (filename file) in
  let w2 := (Sim.sim_open_wb_write path (data file) w1).2 in
  let w3 := (Sim.sim_Pipeline_run (pipeline_configs Sim.settings path) w2).2 in
  let e := Exception "'utf-8' codec can't decode byte 0xff in position 0: invalid start byte" in
  (@uuid4 _ SimMore.undecodable (world s) = (u, w1) ∧
   @open_wb_write _ SimMore.undecodable path (data file) w1 = (Return (), w2) ∧
   @Pipeline_run _ SimMore.undecodable (pipeline_configs Sim.settings path) w2
     = (Return (), w3) ∧
   @os_path_exists _ SimMore.undecodable (output_file_of path) w3 = true ∧
   @open_r_read _ SimMore.undecodable (output_file_of path) w3 = (Raise e, w3)) ∧
  (@upload_document _ SimMore.undecodable Sim.settings file s).1
  = Raise (HTTPException 500 ("Error processing document: " +:+ str_exn e)).
Proof.
  intros s file u w1 path w2 w3 e.
  assert (@uuid4 _ SimMore.undecodable (world s) = (u, w1))
    as Hu by by_computation.
  assert (@open_wb_write _ SimMore.undecodable path (data file) w1
          = (Return (), w2)) as Hw by by_computation.
  assert (@Pipeline_run _ SimMore.undecodable
            (pipeline_configs Sim.settings path) w2 = (Return (), w3))
    as Hp by by_computation.
  assert (@os_path_exists _ SimMore.undecodable (output_file_of path) w3 = true)
    as Hex by by_computation.
  assert (@open_r_read _ SimMore.undecodable (output_file_of path) w3
          = (Raise e, w3)) as Hr by by_computation.
  split; [split_and!; assumption|].
  by rewrite (@upload_fails_on_an_unreadable_artifact _ SimMore.undecodable
                Sim.settings file s u w1 w2 w3 e w3 Hu Hw Hp Hex Hr).
Defined.

Lemma ask_relays_the_model_answer_witness :
  let s := (upload_document Sim.settings Sim.hello_pdf Sim.start).2 in
  let q := {| document_id := UUID.str 0; query := "What does it say?" |} in
  let doc := {| file_name := "hello.pdf";
                file_path := upload_path (UUID.str 0) "hello.pdf";
                content := "[hello]" |} in
  Dict.get (document_id q) (documents_db s) = Some doc ∧
  (ask_question Sim.settings q s).1
  = Return (JObj [("query", JStr "What does it say?");
                  ("response", JStr "It says hello.");
                  ("document", JStr "hello.pdf")]).
Proof.
  intros s q doc.
  assert (Dict.get (document_id q) (documents_db s) = Some doc) as Hdoc
    by by_computation.
  split; [exact Hdoc|].
  by rewrite (ask_relays_the_model_answer Sim.settings q s doc Hdoc).
Defined.

Lemma ask_is_not_found_exactly_for_missing_keys_witness :
  let s := (upload_document Sim.settings Sim.hello_pdf Sim.start).2 in
  let q := {| document_id := UUID.str 7; query := "Who wrote it?" |} in
  (document_id q ∉ Dict.keys (documents_db s)) ∧
  ∃ detail, (ask_question Sim.settings q s).1 = Raise (HTTPException 404 detail).
Proof.
  intros s q.
  assert (document_id q ∉ Dict.keys (documents_db s)) as Hq
    by decide_by_computation.
  split; [exact Hq|].
  exact (proj2 (ask_is_not_found_exactly_for_missing_keys Sim.settings q s) Hq).
Defined.

Lemma listings_agree_between_uploads_witness :
  let s := (upload_document Sim.settings Sim.hello_pdf Sim.start).2 in
  let rs := [GET_documents;
             POST_ask {| document_id := UUID.str 0; query := "Why?" |};
             POST_ask {| document_id := UUID.str 9; query := "Why?" |};
             GET_documents] in
  forallb (λ r, negb (is_upload r)) rs = true ∧
  documents_db (serve Sim.settings rs s).2 = documents_db s ∧
  (list_documents (serve Sim.settings rs s).2).1 = (list_documents s).1 ∧
  Forall (λ '(r, o), r = GET_documents → o = (list_documents s).1)
    (serve Sim.settings rs s).1.
Proof.
  intros s rs. split; [reflexivity|].
  exact (listings_agree_between_uploads Sim.settings rs s eq_refl).
Defined.

Lemma repeated_identifier_replaces_the_record_witness :
  let s := SimMore.repeating in
  let file := SimMore.other_pdf in
  let id := UUID.str (uuid4 (world s)).1 in
  let run := upload_document Sim.settings file s in
  let j := JObj [("message", JStr "Document uploaded and processed successfully");
                 ("document_id", JStr id)] in
  (run = (Return j, run.2) ∧ id ∈ Dict.keys (documents_db s)) ∧
  Dict.keys (documents_db run.2) = Dict.keys (documents_db s) ∧
  (∃ c, Dict.get id (documents_db run.2)
        = Some {| file_name := filename file;
                  file_path := upload_path id (filename file);
                  content := c |}) ∧
  (∀ k, k ≠ id → Dict.get k (documents_db run.2) = Dict.get k (documents_db s)).
Proof.
  intros s file id run j.
  assert (run = (Return j, run.2)) as Hrun by by_computation.
  assert (id ∈ Dict.keys (documents_db s)) as Hin by decide_by_computation.
  split; [by split|].
  exact (repeated_identifier_replaces_the_record
           Sim.settings file s j run.2 Hrun Hin).
Defined.

Lemma question_after_upload_uses_the_artifact_witness :
  let s := Sim.start in
  let file := Sim.hello_pdf in
  let u := 0%N in
  let w1 := (uuid4 (world s)).2 in
  let path := upload_path (UUID.str u) (filename file) in
  let w2 := (open_wb_write path (data file) w1).2 in
  let w3 := (Pipeline_run (pipeline_configs Sim.settings path) w2).2 in
  let s' := (upload_document Sim.settings file s).2 in
  (uuid4 (world s) = (u, w1) ∧
   open_wb_write path (data file) w1 = (Return (), w2) ∧
   Pipeline_run (pipeline_configs Sim.settings path) w2 = (Return (), w3) ∧
   os_path_exists (output_file_of path) w3 = true ∧
   open_r_read (output_file_of path) w3 = (Return "[hello]", w3)) ∧
  calls (ask_question Sim.settings
           {| document_id := UUID.str u; query := "What does it say?" |} s').2
  = calls s' ++ [Call_generate_content (model Sim.settings)
                   (prompt_of "[hello]" "What does it say?")].
Proof.
  intros s file u w1 path w2 w3 s'.
  assert (uuid4 (world s) = (u, w1)) as Hu by by_computation.
  assert (open_wb_write path (data file) w1 = (Return (), w2))
    as Hw by by_computation.
  assert (Pipeline_run (pipeline_configs Sim.settings path) w2 = (Return (), w3))
    as Hp by by_computation.
  assert (os_path_exists (output_file_of path) w3 = true)
    as Hex by by_computation.
  assert (open_r_read (output_file_of path) w3 = (Return "[hello]", w3))
    as Hr by by_computation.
  split; [split_and!; assumption|].
  exact (question_after_upload_uses_the_artifact
           Sim.settings file s u w1 w2 w3 "[hello]" w3 "What does it say?"
           Hu Hw Hp Hex Hr).
Defined.

Lemma sign_up_rejection_is_answered_500_witness :
  let s := Sim.start in
  let user := {| email := "pending@example.org"; password := "secret1" |} in
  let created :=
    {| response_id := UUID.str 0;
       response_email := "pending@example.org";
       response_created_at_isoformat := "2024-11-05T10:00:00+00:00";
       response_confirmed_at := None |} in
  let w' := {| Sim.next_uuid := 1; Sim.files := ∅ |} in
  (create_user (email user) (password user) (world s)
     = (Return (Some created), w') ∧
   (Some created = None ∨
    ∃ c, Some created = Some c ∧ response_confirmed_at c = None)) ∧
  sign_up user s =
    (Raise (HTTPException 500 "400: User creation failed."),
     {| documents_db := documents_db s; world := w'; calls := calls s |}).
Proof.
  intros s user created w'.
  assert (create_user (email user) (password user) (world s)
          = (Return (Some created), w')) as Hcreate by by_computation.
  assert (Some created = None ∨
          ∃ c, Some created = Some c ∧ response_confirmed_at c = None)
    as Hrejected by (right; by exists created).
  split; [by split|].
  exact (sign_up_rejection_is_answered_500 user s (Some created) w'
           Hcreate Hrejected).
Defined.

Lemma sign_up_succeeds_exactly_for_confirmed_users_witness :
  let s := Sim.start in
  let user := {| email := "ada@example.org"; password := "secret1" |} in
  let created :=
    {| response_id := UUID.str 0;
       response_email := "ada@example.org";
       response_created_at_isoformat := "2024-11-05T10:00:00+00:00";
       response_confirmed_at := Some "2024-11-05T10:00:00+00:00" |} in
  let w' := {| Sim.next_uuid := 1; Sim.files := ∅ |} in
  let j := JObj [("message", JStr "User created successfully");
                 ("data",
                  JObj [("id", JStr (response_id created));
                        ("email", JStr (response_email created));
                        ("created_at",
                         JStr (response_created_at_isoformat created))])] in
  create_user (email user) (password user) (world s)
    = (Return (Some created), w') ∧
  (sign_up user s).1 = Return j.
Proof.
  intros s user created w' j.
  assert (create_user (email user) (password user) (world s)
          = (Return (Some created), w')) as Hcreate by by_computation.
  split; [exact Hcreate|].
  destruct (sign_up_succeeds_exactly_for_confirmed_users user s)
    as (_ & _ & _ & Hiff).
  apply (proj2 (Hiff j)).
  exists created, "2024-11-05T10:00:00+00:00", w'. by split_and!.
Defined.

(** ** The two helpers *)

Section HelperFacts.
Context {W : Type} `{!Collaborators W} (settings : Settings).
Implicit Types (s : State W).

(** X17.  The extraction helper raises exactly when the pipeline raises, or
    when the artifact is there and reading it raises; the query helper
    raises exactly when the model raises.  What they raise is a plain
    [Exception], never an HTTP error, whose text is the helper's prefix
    followed by the text of that very error.  Neither helper touches the
    store. *)
Theorem helpers_wrap_every_error (path C Q : string) s :
  let extraction := process_document_with_unstructured settings path s in
  let answer := query_document_with_gemini settings C Q s in
  documents_db extraction.2 = documents_db s ∧
  documents_db answer.2 = documents_db s ∧
  (∀ e, extraction.1 = Raise e ↔
        ∃ cause,
          e = Exception ("Error processing document: " +:+ str_exn cause) ∧
          ((∃ w, Pipeline_run (pipeline_configs settings path) (world s)
                 = (Raise cause, w)) ∨
           (∃ w1 w2,
              Pipeline_run (pipeline_configs settings path) (world s)
                = (Return (), w1) ∧
              os_path_exists (output_file_of path) w1 = true ∧
              open_r_read (output_file_of path) w1 = (Raise cause, w2)))) ∧
  (∀ e, answer.1 = Raise e ↔
        ∃ cause w,
          e = Exception ("Error processing query with Gemini: "
                         +:+ str_exn cause) ∧
          generate_content (model settings) (prompt_of C Q) (world s)
            = (Raise cause, w)).
Proof.
  intros extraction answer. subst extraction answer. unfold_handlers. simpl.
  split_and!.
  - destruct (Pipeline_run _ (world s)) as [[[]|e1] w1]; simpl; [|done].
    destruct (os_path_exists _ w1); simpl; [|done].
    by destruct (open_r_read _ w1) as [[c|e2] w2].
  - by destruct (generate_content _ _ (world s)) as [[text|e1] w1].
  - intros e.
    destruct (Pipeline_run _ (world s)) as [[[]|e1] w1] eqn:Hp; simpl.
    2: { split.
         - intros [= <-]. exists e1. split; [done|]. left. by exists w1.
         - intros (cause & -> & [[w [= -> _]]|(? & ? & [=] & _)]). done. }
    destruct (os_path_exists _ w1) eqn:Hex; simpl.
    2: { split; [done|].
         intros (cause & _ & [[w [=]]|(w1' & w2 & [= <-] & Hex' & _)]).
         congruence. }
    destruct (open_r_read _ w1) as [[c|e2] w2] eqn:Hr; simpl.
    + split; [done|].
      intros (cause & _ & [[w [=]]|(w1' & w2' & [= <-] & _ & Hr')]).
      congruence.
    + split.
      * intros [= <-]. exists e2. split; [done|]. right. by exists w1, w2.
      * intros (cause & -> & [[w [=]]|(w1' & w2' & [= <-] & _ & Hr')]).
        congruence.
  - intros e.
    destruct (generate_content _ _ (world s)) as [[text|e1] w1]; simpl.
    + split; [done|]. by intros (cause & w & _ & [=]).
    + split.
      * intros [= <-]. by exists e1, w1.
      * by intros (cause & w & -> & [= -> _]).
Qed.

End HelperFacts.

Lemma helpers_wrap_every_error_witness :
  let s := (upload_document Sim.settings Sim.broken_pdf Sim.start).2 in
  let path := upload_path (UUID.str 0) (filename Sim.broken_pdf) in
  let cause := Exception "partition request failed" in
  Pipeline_run (pipeline_configs Sim.settings path) (world s)
    = (Raise cause, world s) ∧
  (process_document_with_unstructured Sim.settings path s).1
  = Raise (Exception ("Error processing document: " +:+ str_exn cause)).
Proof.
  intros s path cause.
  assert (Pipeline_run (pipeline_configs Sim.settings path) (world s)
          = (Raise cause, world s)) as Hraise by by_computation.
  split; [exact Hraise|].
  destruct (helpers_wrap_every_error
              Sim.settings path EmptyString EmptyString s)
    as (_ & _ & Hwrap & _).
  apply (proj2 (Hwrap _)). exists cause. split; [reflexivity|].
  left. exists (world s). exact Hraise.
Defined.
